(** * combine_labels.py: merging time-series tables with anomaly labels

    A shallow embedding of [src/combine_labels.py].  The script is a thin
    driver around three libraries (pandas, json, os); those are taken as
    interfaces ([Pandas], [Json], [OS]) and the script's own functions
    ([load_labels], [process_csv_file], [combine_datasets_with_labels],
    [main]) are written over them in a state-and-exception monad, statement
    by statement. *)

From Stdlib Require Import ZArith Lia Ascii String.
From stdpp Require Import base strings list vector gmap pretty.

Local Open Scope Z_scope.
Local Open Scope nat_scope.
Local Open Scope string_scope.

(** ** Python exceptions and results *)

(** A raised exception: its class name and [str(e)]. *)
Record exn := Exn { exn_class : string; str : string }.

Inductive result (A : Type) : Type :=
| Ok (a : A)
| Raise (e : exn).
Arguments Ok {A} a.
Arguments Raise {A} e.

#[global] Instance result_ret : MRet result := λ A a, Ok a.
#[global] Instance result_bind : MBind result := λ A B f r,
  match r with Ok a => f a | Raise e => Raise e end.

(** ** Tables *)

(** A cell of a pandas table.  Cells read from a file are carried as
    [Str] (their text) or [NaN] (missing); [Datetime] is what
    [pd.to_datetime] produces and [Int] what the label column holds. *)
Inductive value (T : Type) : Type :=
| Str (s : string)
| Int (z : Z)
| Datetime (t : T)
| NaN.
Arguments Str {T} s.
Arguments Int {T} z.
Arguments Datetime {T} t.
Arguments NaN {T}.

(** A DataFrame: the length of its index and its columns, in order. *)
Record DataFrame (T : Type) : Type := mkDataFrame {
  nrows : nat;
  columns : list (string * list (value T));
}.
Arguments mkDataFrame {T} nrows columns.
Arguments nrows {T} d.
Arguments columns {T} d.

(** A label index: a dict, in insertion order, from relative file path to
    the list of anomaly timestamps. *)
Definition LabelIndex : Type := list (string * list string).

(** What [json.load] returns for a well-formed document: a label index
    when the top-level value is an object, and otherwise a value of
    another Python type ([list], [str], ...), of which the script only
    ever uses the type name.  The values of the object are taken to be
    lists of strings, as the label files have them. *)
Inductive json_document : Type :=
| JsonObject (members : LabelIndex)
| JsonOther (type_name : string).

(** ** The libraries the script calls *)

Class Pandas := {
  Timestamp : Type;
  Timestamp_eq_dec :: EqDecision Timestamp;
  (** [pd.to_datetime] on one scalar *)
  to_datetime : value Timestamp → result Timestamp;
  (** [pd.to_datetime] on a whole column: one call, which settles on one
      format for the column and gives a column over the same index *)
  to_datetime_column : ∀ n, vec (value Timestamp) n → result (vec Timestamp n);
  (** the text parser behind [pd.read_csv] *)
  parse_csv : string → result (DataFrame Timestamp);
  (** the text [df.to_csv(path, index=False)] writes *)
  format_csv : DataFrame Timestamp → string;
}.

Class Json := {
  (** [json.load] on the text of a file *)
  json_load : string → result json_document;
}.

Class OS := {
  FS : Type;
  (** [os.path.exists] *)
  path_exists : FS → string → bool;
  (** [open(path, 'r')] followed by reading the whole file *)
  read_text : FS → string → result string;
  (** [os.makedirs(path, exist_ok=True)]: how the call ended, and the file
      system it left (also when it raised) *)
  makedirs : FS → string → result unit * FS;
  (** [open(path, 'w')] followed by writing the whole text: how that ended,
      and the file system it left (also when it raised) *)
  write_text : FS → string → string → result unit * FS;
  (** [os.path.join] and [os.path.dirname] *)
  path_join : string → string → string;
  path_dirname : string → string;
}.

(** ** The program state and its monad *)

Section Program.
Context {PD : Pandas} {JS : Json} {SYS : OS}.

Abbreviation Value := (value Timestamp).
Abbreviation Series := (list (value Timestamp)).
Abbreviation Table := (DataFrame Timestamp).

(** The file system, what was printed so far, and the two counters of
    [combine_datasets_with_labels]. *)
Record State : Type := mkState {
  fs : FS;
  stdout : list string;
  processed_count : nat;
  error_count : nat;
}.

Definition M (A : Type) : Type := State → result A * State.

#[global] Instance M_ret : MRet M := λ A a st, (Ok a, st).
#[global] Instance M_bind : MBind M := λ A B f m st,
  match m st with
  | (Ok a, st') => f a st'
  | (Raise e, st') => (Raise e, st')
  end.

Definition lift {A} (r : result A) : M A := λ st, (r, st).

(** [try: body except Exception as e: handler(e)] *)
Definition try_except {A} (body : M A) (handler : exn → M A) : M A := λ st,
  match body st with
  | (Ok a, st') => (Ok a, st')
  | (Raise e, st') => handler e st'
  end.

Definition print (line : string) : M unit := λ st,
  (Ok tt, mkState (fs st) (stdout st ++ [line]) (processed_count st) (error_count st)).

Definition set_counters (p e : nat) : M unit := λ st,
  (Ok tt, mkState (fs st) (stdout st) p e).

Definition incr_processed_count : M unit := λ st,
  (Ok tt, mkState (fs st) (stdout st) (processed_count st + 1) (error_count st)).

Definition incr_error_count : M unit := λ st,
  (Ok tt, mkState (fs st) (stdout st) (processed_count st) (error_count st + 1)).

Definition os_path_exists (path : string) : M bool := λ st,
  (Ok (path_exists (fs st) path), st).

Definition open_read (path : string) : M string := λ st,
  (read_text (fs st) path, st).

Definition os_makedirs (path : string) : M unit := λ st,
  let '(r, fs') := makedirs (fs st) path in
  (r, mkState fs' (stdout st) (processed_count st) (error_count st)).

Definition open_write (path text : string) : M unit := λ st,
  let '(r, fs') := write_text (fs st) path text in
  (r, mkState fs' (stdout st) (processed_count st) (error_count st)).

Fixpoint for_each {A} (body : A → M unit) (l : list A) : M unit :=
  match l with
  | [] => mret tt
  | x :: l' => body x;; for_each body l'
  end.

(** ** pandas operations on tables *)

Definition len (df : Table) : nat := nrows df.

Fixpoint lookup_col (name : string) (cols : list (string * Series)) : option Series :=
  match cols with
  | [] => None
  | (n, c) :: cols' => if bool_decide (n = name) then Some c else lookup_col name cols'
  end.

(** [df[name]]: a [KeyError] when there is no such column. *)
Definition getitem (df : Table) (name : string) : result Series :=
  match lookup_col name (columns df) with
  | Some c => Ok c
  | None => Raise (Exn "KeyError" ("'" +:+ name +:+ "'"))
  end.

Fixpoint assign_col (name : string) (c : Series) (cols : list (string * Series))
  : list (string * Series) :=
  match cols with
  | [] => [(name, c)]
  | (n, c') :: cols' =>
      if bool_decide (n = name) then (n, c) :: cols'
      else (n, c') :: assign_col name c cols'
  end.

(** [df[name] = c]: an existing column is replaced where it stands, a new
    one is appended after the others. *)
Definition setitem (df : Table) (name : string) (c : Series) : Table :=
  mkDataFrame (nrows df) (assign_col name c (columns df)).

(** [df[name] = v] for a scalar [v]: broadcast over the index. *)
Definition setitem_scalar (df : Table) (name : string) (v : Value) : Table :=
  setitem df name (replicate (nrows df) v).

(** [pd.to_datetime(df['timestamp'])]: one call on the whole column, which
    gives a datetime column over the same index, or raises. *)
Definition to_datetime_series (col : Series) : result Series :=
  ts ← to_datetime_column (length col) (list_to_vec col);
  mret (Datetime <$> vec_to_list ts).

(** [col.isin(values)]: the boolean mask of the cells found in [values]. *)
Definition isin (col : Series) (values : list Timestamp) : list bool :=
  (λ v, match v with
        | Datetime t => bool_decide (t ∈ values)
        | _ => false
        end) <$> col.

(** [df.loc[mask, name] = v] *)
Definition loc_setitem (df : Table) (mask : list bool) (name : string) (v : Value) : Table :=
  let old := default (replicate (nrows df) NaN) (lookup_col name (columns df)) in
  setitem df name (zip_with (λ (m : bool) x, if m then v else x) mask old).

(** [col.sum()] of an integer column *)
Definition series_sum (col : Series) : Z :=
  foldr (λ v acc, match v with Int z => (z + acc)%Z | _ => acc end) 0%Z col.

(** [pd.read_csv(path)] and [df.to_csv(path, index=False)] *)
Definition read_csv (path : string) : M Table :=
  text ← open_read path; lift (parse_csv text).

Definition to_csv (df : Table) (path : string) : M unit :=
  open_write path (format_csv df).

(** ** The script *)

Definition load_labels (labels_file : string) : M json_document :=
  text ← open_read labels_file;
  labels ← lift (json_load text);
  mret labels.

Definition process_csv_file (csv_path : string) (anomaly_timestamps : list string)
  : M Table :=
  df ← read_csv csv_path;
  ts ← lift (getitem df "timestamp" ≫= to_datetime_series);
  let df := setitem df "timestamp" ts in
  let df := setitem_scalar df "anomaly" (Int 0) in
  match anomaly_timestamps with
  | _ :: _ =>
      anomaly_times ← lift (mapM (λ ts, to_datetime (Str ts)) anomaly_timestamps);
      col ← lift (getitem df "timestamp");
      mret (loc_setitem df (isin col anomaly_times) "anomaly" (Int 1))
  | [] => mret df
  end.

(** [labels.items()]: an [AttributeError] when the document is not a dict. *)
Definition items (labels : json_document) : result LabelIndex :=
  match labels with
  | JsonObject members => Ok members
  | JsonOther type_name =>
      Raise (Exn "AttributeError"
               ("'" +:+ type_name +:+ "' object has no attribute 'items'"))
  end.

(** Truth value of [output_dir]: neither [None] nor the empty string. *)
Definition truthy (output_dir : option string) : option string :=
  match output_dir with
  | Some d => if bool_decide (d = "") then None else Some d
  | None => None
  end.

Definition loop_body (data_dir : string) (output_dir : option string)
  (entry : string * list string) : M unit :=
  let '(file_path, anomaly_timestamps) := entry in
  try_except
    (let full_csv_path := path_join data_dir file_path in
     found ← os_path_exists full_csv_path;
     if negb found then
       print ("Warning: File not found: " +:+ full_csv_path);;
       incr_error_count
     else
       print ("Processing: " +:+ file_path);;
       df ← process_csv_file full_csv_path anomaly_timestamps;
       let total_points := len df in
       anomaly_col ← lift (getitem df "anomaly");
       let anomaly_points := series_sum anomaly_col in
       print ("  - Total points: " +:+ pretty total_points);;
       print ("  - Anomaly points: " +:+ pretty anomaly_points);;
       print ("  - Normal points: " +:+ pretty (Z.of_nat total_points - anomaly_points)%Z);;
       match truthy output_dir with
       | Some output_dir =>
           let output_file_path := path_join output_dir file_path in
           let output_file_dir := path_dirname output_file_path in
           os_makedirs output_file_dir;;
           to_csv df output_file_path;;
           print ("  - Saved to: " +:+ output_file_path)
       | None =>
           to_csv df full_csv_path;;
           print "  - Updated original file"
       end;;
       incr_processed_count)
    (λ e,
       print ("Error processing " +:+ file_path +:+ ": " +:+ str e);;
       incr_error_count).

Definition nl : string := String "010"%char EmptyString.

Definition combine_datasets_with_labels (data_dir labels_file : string)
  (output_dir : option string) : M unit :=
  print "Loading labels...";;
  labels ← load_labels labels_file;
  match truthy output_dir with
  | Some output_dir => os_makedirs output_dir
  | None => mret tt
  end;;
  set_counters 0 0;;
  entries ← lift (items labels);
  for_each (loop_body data_dir output_dir) entries;;
  print (nl +:+ "Processing complete!");;
  processed ← (λ st, (Ok (processed_count st), st));
  print ("Successfully processed: " +:+ pretty processed +:+ " files");;
  errors ← (λ st, (Ok (error_count st), st));
  print ("Errors encountered: " +:+ pretty errors +:+ " files").

Definition data_directory : string :=
  "C:\Users\Kai\Documents\Time_Series_Anomaly_Detection\Dataset_Viz_Wrong\data".
Definition labels_file : string :=
  "C:\Users\Kai\Documents\Time_Series_Anomaly_Detection\Dataset_Viz_Wrong\labels\combined_labels.json".
Definition output_directory : string :=
  "C:\Users\Kai\Documents\Time_Series_Anomaly_Detection\Dataset_Viz_Wrong\data_with_labels".

Definition prompt : string :=
  "Choose an option:" +:+ nl +:+ "1. Overwrite original files" +:+ nl
  +:+ "2. Create processed files in new directory" +:+ nl
  +:+ "Enter choice (1 or 2): ".

(** [main], with the line typed at the prompt as its argument. *)
Definition main (choice : string) : M unit :=
  print "=== Processing datasets with anomaly labels ===";;
  print ("Data directory: " +:+ data_directory);;
  print ("Labels file: " +:+ labels_file);;
  print "";;
  found ← os_path_exists data_directory;
  if negb found then
    print ("Error: Data directory not found: " +:+ data_directory)
  else
    found ← os_path_exists labels_file;
    if negb found then
      print ("Error: Labels file not found: " +:+ labels_file)
    else
      print prompt;;
      if bool_decide (choice = "2") then
        print ("Creating output directory: " +:+ output_directory);;
        combine_datasets_with_labels data_directory labels_file (Some output_directory)
      else
        print "Processing files in place (original files will be modified)...";;
        combine_datasets_with_labels data_directory labels_file None.

(** ** Notions the properties are stated with *)

(** Every column has one cell per row. *)
Definition rectangular (df : Table) : Prop :=
  Forall (λ nc : string * Series, length nc.2 = nrows df) (columns df).

(** The text of the regular file at a path, if there is one. *)
Definition file_text (m : FS) (path : string) : option string :=
  match read_text m path with Ok text => Some text | Raise _ => None end.

(** The labelling steps of [process_csv_file], after the table is read. *)
Definition label_table (df : Table) (anomaly_timestamps : list string) : result Table :=
  ts ← getitem df "timestamp" ≫= to_datetime_series;
  let df := setitem df "timestamp" ts in
  let df := setitem_scalar df "anomaly" (Int 0) in
  match anomaly_timestamps with
  | _ :: _ =>
      anomaly_times ← mapM (λ ts, to_datetime (Str ts)) anomaly_timestamps;
      col ← getitem df "timestamp";
      mret (loc_setitem df (isin col anomaly_times) "anomaly" (Int 1))
  | [] => mret df
  end.


(** The state after printing some lines. *)
Definition printed (st : State) (lines : list string) : State :=
  mkState (fs st) (stdout st ++ lines) (processed_count st) (error_count st).

(** The state in which the [except] branch of the loop leaves an entry. *)
Definition errored (st : State) (file_path : string) (e : exn) : State :=
  mkState (fs st) (stdout st ++ ["Error processing " +:+ file_path +:+ ": " +:+ str e])
    (processed_count st) (error_count st + 1).

Definition with_fs (st : State) (m : FS) : State :=
  mkState m (stdout st) (processed_count st) (error_count st).

(** What the properties about written files assume of the file system: a
    written file reads back as written; writing a file, whether it
    succeeds or raises, leaves the text of the other files alone; making
    directories, whether it succeeds or raises, leaves the text of every
    file alone. *)
Record FrameLaws : Prop := {
  write_read : ∀ m p text m',
    write_text m p text = (Ok tt, m') → file_text m' p = Some text;
  write_frame : ∀ m p text r m' p',
    write_text m p text = (r, m') → p' ≠ p → file_text m' p' = file_text m p';
  makedirs_frame : ∀ m d r m' p,
    makedirs m d = (r, m') → file_text m' p = file_text m p;
}.

(** What the properties of reruns assume besides: a write that raises
    leaves the text of its own file as it was. *)
Record FsLaws : Prop := {
  fs_frame : FrameLaws;
  failed_write_keeps : ∀ m p text e m',
    write_text m p text = (Raise e, m') → file_text m' p = file_text m p;
}.


End Program.

(** ** A concrete instance of the three libraries

    Used to run the script on explicit inputs.  It follows pandas 2, json
    and a POSIX file system on the inputs it is meant for: timestamps
    written [YYYY-MM-DD], [YYYY-MM-DD HH:MM:SS] or [YYYY-MM-DDTHH:MM:SS]
    (whole seconds, no time zone, years 1678 to 2261), comma separated
    text without quoting whose cells are text or numbers in the spelling
    pandas prints them in, JSON documents made of objects, arrays, strings
    and [null], and paths without a trailing slash.  The text of the
    exceptions is indicative. *)

Module Concrete.

(** *** Timestamps: year, month, day, hour, minute, second; [None] is NaT *)

Definition civil : Type := (N * N * N * N * N * N)%type.
Definition stamp : Type := option civil.

Definition digit (c : ascii) : option N :=
  let n := N_of_ascii c in
  if ((48 <=? n) && (n <=? 57))%N then Some (n - 48)%N else None.

Fixpoint number_from (acc : N) (s : string) : option N :=
  match s with
  | EmptyString => Some acc
  | String c s' => d ← digit c; number_from (acc * 10 + d)%N s'
  end.

Definition number (s : string) : option N :=
  match s with
  | EmptyString => None
  | _ => number_from 0%N s
  end.

Definition leap_year (y : N) : bool :=
  ((y mod 4 =? 0) && (negb (y mod 100 =? 0) || (y mod 400 =? 0)))%N.

Definition days_in_month (y m : N) : N :=
  if (m =? 2)%N then (if leap_year y then 29 else 28)%N
  else if ((m =? 4) || (m =? 6) || (m =? 9) || (m =? 11))%N then 30%N
  else 31%N.

Definition parse_date (s : string) : option (N * N * N) :=
  if bool_decide (String.length s = 10 ∧ substring 4 1 s = "-" ∧ substring 7 1 s = "-") then
    y ← number (substring 0 4 s);
    m ← number (substring 5 2 s);
    d ← number (substring 8 2 s);
    if ((1678 <=? y) && (y <=? 2261) && (1 <=? m) && (m <=? 12)
        && (1 <=? d) && (d <=? days_in_month y m))%N
    then Some (y, m, d) else None
  else None.

Definition parse_time (s : string) : option (N * N * N) :=
  if bool_decide (String.length s = 8 ∧ substring 2 1 s = ":" ∧ substring 5 1 s = ":") then
    h ← number (substring 0 2 s);
    m ← number (substring 3 2 s);
    x ← number (substring 6 2 s);
    if ((h <=? 23) && (m <=? 59) && (x <=? 59))%N then Some (h, m, x) else None
  else None.

(** The three layouts, as [strftime] formats. *)
Inductive layout := DateOnly | DateSpaceTime | DateTTime.

Definition layout_format (f : layout) : string :=
  match f with
  | DateOnly => "%Y-%m-%d"
  | DateSpaceTime => "%Y-%m-%d %H:%M:%S"
  | DateTTime => "%Y-%m-%dT%H:%M:%S"
  end.

(** The layout a string is written in, from its length and separator. *)
Definition guess_layout (s : string) : option layout :=
  if bool_decide (String.length s = 10) then Some DateOnly
  else if bool_decide (String.length s = 19 ∧ substring 10 1 s = " ") then Some DateSpaceTime
  else if bool_decide (String.length s = 19 ∧ substring 10 1 s = "T") then Some DateTTime
  else None.

Definition parse_as (f : layout) (s : string) : option civil :=
  match f with
  | DateOnly => '(y, m, d) ← parse_date s; Some (y, m, d, 0, 0, 0)%N
  | DateSpaceTime =>
      if bool_decide (substring 10 1 s = " ") then
        '(y, m, d) ← parse_date (substring 0 10 s);
        '(h, mi, x) ← parse_time (substring 11 8 s);
        if bool_decide (String.length s = 19) then Some (y, m, d, h, mi, x) else None
      else None
  | DateTTime =>
      if bool_decide (substring 10 1 s = "T") then
        '(y, m, d) ← parse_date (substring 0 10 s);
        '(h, mi, x) ← parse_time (substring 11 8 s);
        if bool_decide (String.length s = 19) then Some (y, m, d, h, mi, x) else None
      else None
  end.

(** The strings pandas reads as a missing timestamp. *)
Definition nat_string (s : string) : bool :=
  bool_decide (s ∈ [""; "NaT"; "nat"; "NAT"; "nan"; "NaN"; "NAN"]).

(** [pd.to_datetime] on one scalar: the layout is taken from the string
    itself. *)
Definition stamp_of_value (v : value stamp) : result stamp :=
  match v with
  | Str s =>
      if nat_string s then Ok None
      else match guess_layout s ≫= λ f, parse_as f s with
           | Some t => Ok (Some t)
           | None =>
               Raise (Exn "DateParseError"
                        ("Unknown datetime string format, unable to parse: " +:+ s))
           end
  | Datetime t => Ok t
  | NaN => Ok None
  | Int _ => Raise (Exn "OutOfDomain" "integer timestamps are not covered")
  end.

(** The layout of the first cell that is not missing. *)
Fixpoint column_layout (col : list (value stamp)) : option string :=
  match col with
  | [] => None
  | Str s :: col' => if nat_string s then column_layout col' else Some s
  | NaN :: col' => column_layout col'
  | _ :: col' => column_layout col'
  end.

(** One cell of a column converted in the column's layout. *)
Definition stamp_in_layout (f : option layout) (v : value stamp) : result stamp :=
  match v with
  | Str s =>
      if nat_string s then Ok None
      else match f ≫= λ f, parse_as f s with
           | Some t => Ok (Some t)
           | None =>
               Raise (Exn "ValueError"
                        ("time data " +:+ s +:+ " doesn't match format "
                         +:+ from_option layout_format "" f))
           end
  | Datetime t => Ok t
  | NaN => Ok None
  | Int _ => Raise (Exn "OutOfDomain" "integer timestamps are not covered")
  end.

Fixpoint vec_mapM {A B : Type} (f : A → result B) {n} (v : vec A n)
  : result (vec B n) :=
  match v with
  | vnil => Ok vnil
  | vcons x v' => y ← f x; ys ← vec_mapM f v'; Ok (vcons y ys)
  end.

(** [pd.to_datetime] on a column: the layout of the first cell that is not
    missing is the layout of the column, and a cell written otherwise
    raises. *)
Definition stamps_of_column (n : nat) (col : vec (value stamp) n) : result (vec stamp n) :=
  let f := column_layout (vec_to_list col) ≫= guess_layout in
  vec_mapM (stamp_in_layout f) col.

Definition pad (width : nat) (n : N) : string :=
  let s := pretty n in
  String.concat "" (replicate (width - String.length s) "0") +:+ s.

Definition show_date (t : civil) : string :=
  let '(y, m, d, _, _, _) := t in pad 4 y +:+ "-" +:+ pad 2 m +:+ "-" +:+ pad 2 d.

Definition show_stamp (t : civil) : string :=
  let '(_, _, _, h, mi, x) := t in
  show_date t +:+ " " +:+ pad 2 h +:+ ":" +:+ pad 2 mi +:+ ":" +:+ pad 2 x.

(** *** Comma separated text *)

Fixpoint split_on (sep : ascii) (s : string) : list string :=
  match s with
  | EmptyString => [EmptyString]
  | String c s' =>
      if bool_decide (c = sep) then EmptyString :: split_on sep s'
      else match split_on sep s' with
           | x :: xs => String c x :: xs
           | [] => [String c EmptyString]
           end
  end.

Definition newline : ascii := "010"%char.

Definition text_lines (text : string) : list string :=
  filter (λ l, l ≠ "") (split_on newline text).

(** The cell texts [read_csv] reads as missing. *)
Definition na_marker (s : string) : bool :=
  bool_decide (s ∈ [""; "#N/A"; "#N/A N/A"; "#NA"; "-1.#IND"; "-1.#QNAN"; "-NaN";
                    "-nan"; "1.#IND"; "1.#QNAN"; "<NA>"; "N/A"; "NA"; "NULL";
                    "NaN"; "None"; "n/a"; "nan"; "null"]).

Definition cell_of_text (s : string) : value stamp :=
  if na_marker s then NaN else Str s.

(** A row shorter than the header is padded with missing cells; a longer
    one is an error. *)
Definition csv_parse (text : string) : result (DataFrame stamp) :=
  match text_lines text with
  | [] => Raise (Exn "EmptyDataError" "No columns to parse from file")
  | header :: body =>
      let names := split_on ","%char header in
      let rows := map (split_on ","%char) body in
      if forallb (λ r : list string, bool_decide (length r ≤ length names)%nat) rows then
        Ok (mkDataFrame (length rows)
              (imap (λ i n, (n, map (λ r, cell_of_text (default "" (r !! i))) rows)) names))
      else Raise (Exn "ParserError" "Error tokenizing data")
  end.

Definition midnight (v : value stamp) : bool :=
  match v with
  | Datetime (Some (_, _, _, h, mi, x)) => bool_decide (h = 0 ∧ mi = 0 ∧ x = 0)%N
  | _ => true
  end.

(** A cell as [to_csv] prints it; a datetime column whose times are all
    midnight is printed as dates, and a missing cell as nothing. *)
Definition show_cell (dates_only : bool) (v : value stamp) : string :=
  match v with
  | Str s => s
  | Int z => pretty z
  | Datetime (Some t) => if dates_only then show_date t else show_stamp t
  | Datetime None => ""
  | NaN => ""
  end.

Definition show_column (c : list (value stamp)) : list string :=
  map (show_cell (forallb midnight c)) c.

Definition csv_format (df : DataFrame stamp) : string :=
  let cols := map (λ nc, show_column nc.2) (columns df) in
  let row i := String.concat "," (map (λ c, default "" (c !! i)) cols) in
  String.concat ""
    (map (λ l, l +:+ String newline EmptyString)
       (String.concat "," (map fst (columns df)) :: map row (seq 0 (nrows df)))).

#[export] Instance pandas : Pandas := {|
  Timestamp := stamp;
  to_datetime := stamp_of_value;
  to_datetime_column := stamps_of_column;
  parse_csv := csv_parse;
  format_csv := csv_format;
|}.

(** *** JSON text *)

Inductive token :=
| TLBrace | TRBrace | TLBrack | TRBrack | TColon | TComma
| TString (s : string).

Definition dquote : ascii := "034"%char.

(** [cur] is the string literal being read, if any. *)
Fixpoint tokenize (cur : option string) (s : string) : option (list token) :=
  match s with
  | EmptyString => match cur with None => Some [] | Some _ => None end
  | String c s' =>
      match cur with
      | Some acc =>
          if bool_decide (c = dquote) then (TString acc ::.) <$> tokenize None s'
          else tokenize (Some (acc +:+ String c EmptyString)) s'
      | None =>
          if bool_decide (c = dquote) then tokenize (Some "") s'
          else if bool_decide (c = " "%char ∨ c = newline) then tokenize None s'
          else if bool_decide (c = "{"%char) then (TLBrace ::.) <$> tokenize None s'
          else if bool_decide (c = "}"%char) then (TRBrace ::.) <$> tokenize None s'
          else if bool_decide (c = "["%char) then (TLBrack ::.) <$> tokenize None s'
          else if bool_decide (c = "]"%char) then (TRBrack ::.) <$> tokenize None s'
          else if bool_decide (c = ":"%char) then (TColon ::.) <$> tokenize None s'
          else if bool_decide (c = ","%char) then (TComma ::.) <$> tokenize None s'
          else None
      end
  end.

(** The strings of an array, after its opening bracket. *)
Fixpoint array_items (first : bool) (ts : list token) : option (list string * list token) :=
  match ts with
  | TRBrack :: rest => if first then Some ([], rest) else None
  | TString s :: TRBrack :: rest => Some ([s], rest)
  | TString s :: TComma :: rest =>
      '(l, rest') ← array_items false rest; Some (s :: l, rest')
  | _ => None
  end.

(** [d[k] = v] on a dict kept in insertion order *)
Fixpoint dict_set (k : string) (v : list string) (d : LabelIndex) : LabelIndex :=
  match d with
  | [] => [(k, v)]
  | (k', v') :: d' =>
      if bool_decide (k' = k) then (k', v) :: d' else (k', v') :: dict_set k v d'
  end.

(** The members of an object, after its opening brace; [fuel] bounds the
    number of members by the number of tokens. *)
Fixpoint object_members (fuel : nat) (first : bool) (acc : LabelIndex) (ts : list token)
  : option LabelIndex :=
  match fuel with
  | 0 => None
  | S fuel' =>
      match ts with
      | [TRBrace] => if first then Some acc else None
      | TString k :: TColon :: TLBrack :: rest =>
          '(v, rest') ← array_items true rest;
          match rest' with
          | [TRBrace] => Some (dict_set k v acc)
          | TComma :: rest'' => object_members fuel' false (dict_set k v acc) rest''
          | _ => None
          end
      | _ => None
      end
  end.

Definition decode_error : exn := Exn "JSONDecodeError" "Expecting value".

(** An object of string arrays is a label index; an array of strings, a
    string and [null] are documents of another type. *)
Definition json_parse (text : string) : result json_document :=
  if bool_decide (text = "null") then Ok (JsonOther "NoneType")
  else match tokenize None text with
       | Some (TLBrace :: ts) =>
           match object_members (S (length ts)) true [] ts with
           | Some d => Ok (JsonObject d)
           | None => Raise decode_error
           end
       | Some (TLBrack :: ts) =>
           match array_items true ts with
           | Some (_, []) => Ok (JsonOther "list")
           | _ => Raise decode_error
           end
       | Some [TString _] => Ok (JsonOther "str")
       | _ => Raise decode_error
       end.

#[export] Instance json : Json := {| json_load := json_parse |}.

(** *** Files and directories *)

Inductive node := File (text : string) | Dir.

Definition posix_join (a b : string) : string :=
  if bool_decide (substring 0 1 b = "/") then b
  else if bool_decide (a = "" ∨ substring (String.length a - 1) 1 a = "/") then a +:+ b
  else a +:+ "/" +:+ b.

(** The prefixes of [s] that end just before a slash. *)
Fixpoint dir_prefixes (pre s : string) : list string :=
  match s with
  | EmptyString => []
  | String c s' =>
      (if bool_decide (c = "/"%char ∧ pre ≠ "") then [pre] else [])
      ++ dir_prefixes (pre +:+ String c EmptyString) s'
  end.

Definition posix_dirname (p : string) : string :=
  default "" (last (dir_prefixes "" p)).

Definition os_error (class : string) (errno : string) (p : string) : exn :=
  Exn class ("[Errno " +:+ errno +:+ "'" +:+ p +:+ "'").

Definition is_dir (m : gmap string node) (d : string) : bool :=
  match m !! d with Some Dir => true | _ => false end.

(** What stands in the way of creating or opening [p] in its directory. *)
Definition parent_error (m : gmap string node) (p : string) : option exn :=
  let d := posix_dirname p in
  if bool_decide (d = "") then None
  else match m !! d with
       | Some Dir => None
       | Some (File _) => Some (os_error "NotADirectoryError" "20] Not a directory: " p)
       | None => Some (os_error "FileNotFoundError" "2] No such file or directory: " p)
       end.

(** [os.mkdir] *)
Definition mkdir (m : gmap string node) (p : string) : result unit * gmap string node :=
  match m !! p with
  | Some _ => (Raise (os_error "FileExistsError" "17] File exists: " p), m)
  | None =>
      match parent_error m p with
      | Some e => (Raise e, m)
      | None => (Ok tt, <[p := Dir]> m)
      end
  end.

(** [os.makedirs(name, exist_ok=True)] along the chain [name], its
    directory, the directory of that, ...: a missing directory of [name]
    is made first, then [name] itself, and an error of that last step is
    dropped when [name] is a directory by then. *)
Fixpoint makedirs_chain (chain : list string) (m : gmap string node)
  : result unit * gmap string node :=
  match chain with
  | [] => (Ok tt, m)
  | name :: heads =>
      let '(r, m1) :=
        match heads with
        | head :: _ =>
            if bool_decide (is_Some (m !! head)) then (Ok tt, m)
            else match makedirs_chain heads m with
                 | (Raise e, m') =>
                     if bool_decide (exn_class e = "FileExistsError") then (Ok tt, m')
                     else (Raise e, m')
                 | ok => ok
                 end
        | [] => (Ok tt, m)
        end in
      match r with
      | Raise e => (Raise e, m1)
      | Ok _ =>
          match mkdir m1 name with
          | (Raise e, m2) => if is_dir m2 name then (Ok tt, m2) else (Raise e, m2)
          | ok => ok
          end
      end
  end.

Definition fs_makedirs (m : gmap string node) (d : string) : result unit * gmap string node :=
  makedirs_chain (d :: reverse (dir_prefixes "" d)) m.

Definition fs_read (m : gmap string node) (p : string) : result string :=
  match m !! p with
  | Some (File text) => Ok text
  | Some Dir => Raise (os_error "IsADirectoryError" "21] Is a directory: " p)
  | None => Raise (os_error "FileNotFoundError" "2] No such file or directory: " p)
  end.

(** Opening for writing fails before anything is written. *)
Definition fs_write (m : gmap string node) (p text : string)
  : result unit * gmap string node :=
  match m !! p with
  | Some Dir => (Raise (os_error "IsADirectoryError" "21] Is a directory: " p), m)
  | _ =>
      match parent_error m p with
      | Some e => (Raise e, m)
      | None => (Ok tt, <[p := File text]> m)
      end
  end.

#[export] Instance os : OS := {|
  FS := gmap string node;
  path_exists := λ m p, bool_decide (is_Some (m !! p));
  read_text := fs_read;
  makedirs := fs_makedirs;
  write_text := fs_write;
  path_join := posix_join;
  path_dirname := posix_dirname;
|}.

Definition q (s : string) : string := String dquote EmptyString +:+ s +:+ String dquote EmptyString.

Definition lines (l : list string) : string :=
  String.concat "" (map (λ x, x +:+ String newline EmptyString) l).

Definition start (m : gmap string node) : State := mkState m [] 0 0.

(** The scenario of the specification: one file, one anomaly. *)
Definition sensorA_labels : string :=
  "{" +:+ q "sensorA.csv" +:+ ": [" +:+ q "2024-01-01T00:00:05" +:+ "]}".

Definition sensorA_csv : string :=
  lines ["timestamp,value";
         "2024-01-01T00:00:00,1.5";
         "2024-01-01T00:00:05,9.75";
         "2024-01-01T00:00:10,1.25"].

Definition sensorA_fs : gmap string node :=
  <["data" := Dir]> (<["data/sensorA.csv" := File sensorA_csv]>
    (<["labels.json" := File sensorA_labels]> ∅)).

Definition sensorA_entry : string * list string :=
  ("sensorA.csv", ["2024-01-01T00:00:05"]).

Definition sensorA_table : result (DataFrame stamp) * State :=
  process_csv_file "data/sensorA.csv" ["2024-01-01T00:00:05"] (start sensorA_fs).

Definition sensorA_run (output_dir : option string) : result unit * State :=
  combine_datasets_with_labels "data" "labels.json" output_dir (start sensorA_fs).

Definition sensorA_labelled : string :=
  lines ["timestamp,value,anomaly";
         "2024-01-01 00:00:00,1.5,0";
         "2024-01-01 00:00:05,9.75,1";
         "2024-01-01 00:00:10,1.25,0"].

Definition sensorA_times : list stamp :=
  [Some (2024, 1, 1, 0, 0, 0)%N; Some (2024, 1, 1, 0, 0, 5)%N;
   Some (2024, 1, 1, 0, 0, 10)%N].

Definition sensorA_df (labels : list Z) : DataFrame stamp :=
  mkDataFrame 3
    [("timestamp", Datetime <$> sensorA_times);
     ("value", [Str "1.5"; Str "9.75"; Str "1.25"]);
     ("anomaly", Int <$> labels)].

(** The scenario's table as it is read, before labelling. *)
Definition sensorA_raw : DataFrame stamp :=
  mkDataFrame 3
    [("timestamp", [Str "2024-01-01T00:00:00"; Str "2024-01-01T00:00:05";
                    Str "2024-01-01T00:00:10"]);
     ("value", [Str "1.5"; Str "9.75"; Str "1.25"])].












Definition main_fs : gmap string node :=
  <[data_directory := Dir]> (<[labels_file := File "{}"]> ∅).



Definition empty_index_fs : gmap string node :=
  <["labels.json" := File "{}"]> ∅.



End Concrete.


(** * Properties *)

Section Properties.
Context {PD : Pandas} {JS : Json} {SYS : OS}.

Abbreviation Series := (list (value Timestamp)).
Abbreviation Table := (DataFrame Timestamp).

Ltac unfold_M :=
  unfold mbind, mret, M_bind, M_ret, lift, try_except, print, set_counters,
    incr_processed_count, incr_error_count, os_path_exists, open_read,
    os_makedirs, open_write.

(** ** Columns *)

Lemma lookup_col_assign_eq (n : string) (c : Series) cols :
  lookup_col n (assign_col n c cols) = Some c.
Proof.
  induction cols as [|[n' c'] cols IH]; simpl.
  - by rewrite bool_decide_eq_true_2.
  - case_bool_decide as Hn; simpl.
    + by rewrite bool_decide_eq_true_2.
    + by rewrite bool_decide_eq_false_2.
Qed.

Lemma lookup_col_assign_ne (n n' : string) (c : Series) cols :
  n ≠ n' → lookup_col n' (assign_col n c cols) = lookup_col n' cols.
Proof.
  intros Hne. induction cols as [|[m c'] cols IH]; simpl.
  - by rewrite bool_decide_eq_false_2.
  - case_bool_decide as Hn; simpl.
    + subst m. by rewrite !bool_decide_eq_false_2.
    + by rewrite IH.
Qed.



Lemma assign_col_Forall (P : string * Series → Prop) n c cols :
  Forall P cols → (∀ m, P (m, c)) → Forall P (assign_col n c cols).
Proof.
  intros Hall Hc. induction Hall as [|[m c'] cols Hx Hall IH]; simpl.
  - by constructor.
  - case_bool_decide; constructor; auto.
Qed.

Lemma assign_col_twice (n : string) (c1 c2 : Series) cols :
  assign_col n c2 (assign_col n c1 cols) = assign_col n c2 cols.
Proof.
  induction cols as [|[m c'] cols IH]; cbn [assign_col].
  - by rewrite bool_decide_eq_true_2.
  - destruct (decide (m = n)) as [-> | Hn].
    + rewrite bool_decide_eq_true_2 by done. cbn [assign_col].
      by rewrite bool_decide_eq_true_2.
    + rewrite bool_decide_eq_false_2 by done. cbn [assign_col].
      rewrite bool_decide_eq_false_2 by done. by rewrite IH.
Qed.

(** ** Conversions of whole lists *)

Lemma mapM_Ok {A B} (f : A → result B) (l : list A) (k : list B) :
  mapM f l = Ok k ↔ Forall2 (λ x y, f x = Ok y) l k.
Proof.
  revert k. induction l as [|x l IH]; intros k; cbn.
  - split; [intros [= <-]; constructor | by inversion 1].
  - unfold mbind, result_bind, mret, result_ret.
    destruct (f x) as [y|e] eqn:Hfx.
    + destruct (mapM f l) as [k'|e] eqn:Hl.
      * split.
        -- intros [= <-]. constructor; [done | by apply IH].
        -- inversion 1 as [|? y' ? k'' Hy Hk]; subst.
           apply IH in Hk. congruence.
      * split; [done |]. inversion 1 as [|? y' ? k'' Hy Hk]; subst.
        apply IH in Hk. done.
    + split; [done |]. inversion 1; congruence.
Qed.

Lemma to_datetime_series_Ok (col tcol : Series) :
  to_datetime_series col = Ok tcol →
  ∃ ts : list Timestamp, tcol = Datetime <$> ts ∧ length ts = length col.
Proof.
  unfold to_datetime_series. unfold mbind, result_bind, mret, result_ret.
  destruct (to_datetime_column _ _) as [ts|e]; [|done].
  intros [= <-]. exists (vec_to_list ts). split; [done | apply length_vec_to_list].
Qed.

(** ** The labeler *)

Lemma process_csv_file_eq (path : string) (ats : list string) (st : State) :
  process_csv_file path ats st =
  (text ← read_text (fs st) path; df ← parse_csv text; label_table df ats, st).
Proof.
  unfold process_csv_file, read_csv, label_table. unfold_M.
  unfold result_bind, result_ret.
  destruct (read_text (fs st) path) as [text|e]; [|done].
  destruct (parse_csv text) as [df|e]; [|done].
  destruct (getitem df "timestamp") as [col|e]; [|done].
  destruct (to_datetime_series col) as [ts|e]; [|done].
  destruct ats as [|a ats]; [done |].
  destruct (mapM _ (a :: ats)) as [times|e]; [|done].
  by destruct (getitem _ "timestamp").
Qed.

Lemma process_csv_file_state path ats st r st' :
  process_csv_file path ats st = (r, st') → st' = st.
Proof. rewrite process_csv_file_eq. by intros [= _ <-]. Qed.

Lemma process_csv_file_result path ats st r :
  (process_csv_file path ats st).1 = r → process_csv_file path ats st = (r, st).
Proof. rewrite process_csv_file_eq. by intros <-. Qed.

(** A call is settled by how it ended and the state it left. *)
Lemma ended {A B} (call : A * B) (a : A) : call.1 = a → call = (a, call.2).
Proof. destruct call. by intros <-. Qed.

(** The label column [process_csv_file] builds from the converted
    timestamp column [ts] and the parsed anomaly timestamps [times]. *)
Lemma label_table_Ok (df0 df : Table) (ats : list string) :
  label_table df0 ats = Ok df →
  ∃ (col : Series) (ts times : list Timestamp),
    getitem df0 "timestamp" = Ok col ∧
    to_datetime_series col = Ok (Datetime <$> ts) ∧
    length ts = length col ∧
    Forall2 (λ s t, to_datetime (Str s) = Ok t) ats times ∧
    nrows df = nrows df0 ∧
    columns df =
      assign_col "anomaly"
        (match ats with
         | [] => replicate (nrows df0) (Int 0)
         | _ => zip_with (λ (m : bool) x, if m then Int 1 else x)
                  (isin (Datetime <$> ts) times) (replicate (nrows df0) (Int 0))
         end)
        (assign_col "timestamp" (Datetime <$> ts) (columns df0)).
Proof.
  unfold label_table. unfold mbind at 1, result_bind.
  destruct (getitem df0 "timestamp" ≫= to_datetime_series) as [tcol|e] eqn:Hts; [|done].
  unfold mbind, result_bind in Hts.
  destruct (getitem df0 "timestamp") as [col|e] eqn:Hcol; [|done].
  destruct (to_datetime_series_Ok _ _ Hts) as (ts & -> & Hlen).
  destruct ats as [|a ats].
  - intros [= <-]. exists col, ts, [].
    split; [done |]. split; [done |]. split; [done |]. split; [constructor | done].
  - unfold mbind at 1, result_bind.
    destruct (mapM _ (a :: ats)) as [times|e] eqn:Htimes; [|done].
    apply mapM_Ok in Htimes.
    unfold getitem at 1, setitem_scalar, setitem. cbn [columns nrows].
    rewrite lookup_col_assign_ne by done. rewrite lookup_col_assign_eq.
    cbn. intros [= <-]. exists col, ts, times.
    split; [done |]. split; [done |]. split; [done |]. split; [done |].
    split; [done |].
    unfold loc_setitem, setitem. cbn [columns nrows].
    rewrite lookup_col_assign_eq. cbn [default]. by rewrite assign_col_twice.
Qed.

Lemma process_csv_file_Ok path ats st df st' :
  process_csv_file path ats st = (Ok df, st') →
  st' = st ∧
  ∃ text df0,
    read_text (fs st) path = Ok text ∧ parse_csv text = Ok df0 ∧
    label_table df0 ats = Ok df.
Proof.
  rewrite process_csv_file_eq. unfold mbind, result_bind.
  destruct (read_text (fs st) path) as [text|e]; [|done].
  destruct (parse_csv text) as [df0|e] eqn:Hdf0; [|done].
  intros [= Hdf <-]. split; [done |]. by exists text, df0.
Qed.

Lemma label_table_anomaly (df0 df : Table) ats :
  label_table df0 ats = Ok df → ∃ lab, getitem df "anomaly" = Ok lab.
Proof.
  intros (col & ts & times & _ & _ & _ & _ & _ & Hcols)%label_table_Ok.
  unfold getitem. rewrite Hcols, lookup_col_assign_eq. eauto.
Qed.

(** ** One iteration of the loop *)

Lemma loop_body_missing data out k ats st :
  path_exists (fs st) (path_join data k) = false →
  loop_body data out (k, ats) st =
  (Ok tt,
   mkState (fs st)
     (stdout st ++ ["Warning: File not found: " +:+ path_join data k])
     (processed_count st) (error_count st + 1)).
Proof. intros Hex. unfold loop_body. unfold_M. by rewrite Hex. Qed.

Lemma loop_body_raises data out k ats st e st' :
  path_exists (fs st) (path_join data k) = true →
  process_csv_file (path_join data k) ats st = (Raise e, st') →
  loop_body data out (k, ats) st =
  (Ok tt, errored (printed st ["Processing: " +:+ k]) k e).
Proof.
  intros Hex Hp. pose proof (process_csv_file_state _ _ _ _ _ Hp) as ->.
  rewrite process_csv_file_eq in Hp. injection Hp as Hp.
  unfold loop_body. unfold_M. rewrite Hex. cbn [negb].
  rewrite process_csv_file_eq. cbn [fs]. by rewrite Hp.
Qed.

Lemma loop_body_labelled data out k ats st df st' lab :
  path_exists (fs st) (path_join data k) = true →
  process_csv_file (path_join data k) ats st = (Ok df, st') →
  getitem df "anomaly" = Ok lab →
  loop_body data out (k, ats) st =
  let st1 := printed st
    ["Processing: " +:+ k;
     "  - Total points: " +:+ pretty (nrows df);
     "  - Anomaly points: " +:+ pretty (series_sum lab);
     "  - Normal points: " +:+ pretty (Z.of_nat (nrows df) - series_sum lab)%Z] in
  match truthy out with
  | Some o =>
      match makedirs (fs st) (path_dirname (path_join o k)) with
      | (Raise e, m1) => (Ok tt, errored (with_fs st1 m1) k e)
      | (Ok _, m1) =>
          match write_text m1 (path_join o k) (format_csv df) with
          | (Raise e, m2) => (Ok tt, errored (with_fs st1 m2) k e)
          | (Ok _, m2) =>
              (Ok tt,
               mkState m2 (stdout st1 ++ ["  - Saved to: " +:+ path_join o k])
                 (processed_count st + 1) (error_count st))
          end
      end
  | None =>
      match write_text (fs st) (path_join data k) (format_csv df) with
      | (Raise e, m2) => (Ok tt, errored (with_fs st1 m2) k e)
      | (Ok _, m2) =>
          (Ok tt,
           mkState m2 (stdout st1 ++ ["  - Updated original file"])
             (processed_count st + 1) (error_count st))
      end
  end.
Proof.
  intros Hex Hp Hlab. pose proof (process_csv_file_state _ _ _ _ _ Hp) as ->.
  rewrite process_csv_file_eq in Hp. injection Hp as Hp.
  unfold loop_body. unfold_M. rewrite Hex. cbn [negb].
  rewrite process_csv_file_eq. cbn [fs]. rewrite Hp, Hlab.
  unfold to_csv, open_write, len, errored, printed, with_fs.
  cbn [fs stdout processed_count error_count].
  destruct (truthy out) as [o|].
  - destruct (makedirs _ _) as [[[]|e] m1]; cbn [fs stdout processed_count error_count].
    + destruct (write_text _ _ _) as [[[]|e] m2];
        cbn [fs stdout processed_count error_count];
        rewrite <- !app_assoc; reflexivity.
    + rewrite <- !app_assoc; reflexivity.
  - destruct (write_text _ _ _) as [[[]|e] m2];
      cbn [fs stdout processed_count error_count];
      rewrite <- !app_assoc; reflexivity.
Qed.

(** Every iteration ends normally and moves exactly one counter by one. *)
Lemma loop_body_step data out entry st :
  ∃ st',
    loop_body data out entry st = (Ok tt, st') ∧
    ((processed_count st' = processed_count st + 1 ∧ error_count st' = error_count st) ∨
     (processed_count st' = processed_count st ∧ error_count st' = error_count st + 1)).
Proof.
  destruct entry as [k ats].
  destruct (path_exists (fs st) (path_join data k)) eqn:Hex.
  - destruct (process_csv_file (path_join data k) ats st) as [[df|e] st'] eqn:Hp.
    + destruct (process_csv_file_Ok _ _ _ _ _ Hp) as (-> & text & df0 & _ & _ & Hl).
      destruct (label_table_anomaly _ _ _ Hl) as [lab Hlab].
      rewrite (loop_body_labelled _ _ _ _ _ _ _ _ Hex Hp Hlab). cbn zeta.
      destruct (truthy out) as [o|].
      * destruct (makedirs _ _) as [[[]|e] m1];
          [destruct (write_text _ _ _) as [[[]|e] m2] |];
          eexists; (split; [reflexivity |]); cbn; auto.
      * destruct (write_text _ _ _) as [[[]|e] m2];
          eexists; (split; [reflexivity |]); cbn; auto.
    + rewrite (loop_body_raises _ _ _ _ _ _ _ Hex Hp).
      eexists; (split; [reflexivity |]); cbn; auto.
  - rewrite (loop_body_missing _ _ _ _ _ Hex).
    eexists; (split; [reflexivity |]); cbn; auto.
Qed.

(** ** The loop *)

Lemma for_each_cons {A} (body : A → M unit) x l st :
  for_each body (x :: l) st =
  match body x st with
  | (Ok _, st1) => for_each body l st1
  | (Raise e, st1) => (Raise e, st1)
  end.
Proof. reflexivity. Qed.


Lemma for_each_loop_body data out l st :
  ∃ st',
    for_each (loop_body data out) l st = (Ok tt, st') ∧
    processed_count st' + error_count st' =
      processed_count st + error_count st + length l.
Proof.
  revert st. induction l as [|entry l IH]; intros st.
  - exists st. split; [done |]. cbn [length]. lia.
  - destruct (loop_body_step data out entry st) as (st1 & Hst1 & Hcount).
    destruct (IH st1) as (st' & Hst' & Hsum).
    exists st'. rewrite for_each_cons, Hst1. split; [done |].
    cbn [length]. lia.
Qed.

(** ** The run *)

Lemma combine_load_fails data lf out st e :
  (read_text (fs st) lf = Raise e ∨
   ∃ text, read_text (fs st) lf = Ok text ∧ json_load text = Raise e) →
  combine_datasets_with_labels data lf out st =
  (Raise e, printed st ["Loading labels..."]).
Proof.
  intros Hload. unfold combine_datasets_with_labels, load_labels. unfold_M.
  cbn [fs]. destruct Hload as [-> | (text & -> & ->)]; reflexivity.
Qed.

Lemma combine_loaded data lf out st text labels m st3 :
  read_text (fs st) lf = Ok text →
  json_load text = Ok (JsonObject labels) →
  match truthy out with Some o => makedirs (fs st) o | None => (Ok tt, fs st) end
    = (Ok tt, m) →
  for_each (loop_body data out) labels
    (mkState m (stdout st ++ ["Loading labels..."]) 0 0) = (Ok tt, st3) →
  combine_datasets_with_labels data lf out st =
  (Ok tt,
   printed st3
     [nl +:+ "Processing complete!";
      "Successfully processed: " +:+ pretty (processed_count st3) +:+ " files";
      "Errors encountered: " +:+ pretty (error_count st3) +:+ " files"]).
Proof.
  intros Hread Hjson Hmk Hloop.
  unfold combine_datasets_with_labels, load_labels, os_makedirs. unfold_M.
  cbn [fs]. rewrite Hread, Hjson.
  destruct (truthy out) as [o|]; cbn [fs stdout processed_count error_count items].
  - rewrite Hmk. cbn [fs stdout processed_count error_count]. rewrite Hloop.
    unfold printed. cbn [fs stdout processed_count error_count].
    by rewrite <- !app_assoc.
  - injection Hmk as <-. rewrite Hloop.
    unfold printed. cbn [fs stdout processed_count error_count].
    by rewrite <- !app_assoc.
Qed.

(** ** Claims about the label column *)

Lemma lookup_col_Some (n : string) (c : Series) cols :
  lookup_col n cols = Some c → (n, c) ∈ cols.
Proof.
  induction cols as [|[m c'] cols IH]; cbn [lookup_col]; [done |].
  case_bool_decide as Hn.
  - intros [= ->]. subst. left.
  - intros Hc. right. by apply IH.
Qed.

Lemma isin_lookup (ts times : list Timestamp) i t :
  ts !! i = Some t →
  isin (Datetime <$> ts) times !! i = Some (bool_decide (t ∈ times)).
Proof. intros Hi. unfold isin. by rewrite !list_lookup_fmap, Hi. Qed.

Lemma getitem_length (df : Table) n (c : Series) :
  getitem df n = Ok c → rectangular df → length c = nrows df.
Proof.
  unfold getitem. destruct (lookup_col n (columns df)) as [c'|] eqn:Hc; [|done].
  intros [= ->] Hrect. apply lookup_col_Some in Hc.
  unfold rectangular in Hrect. rewrite Forall_forall in Hrect.
  by apply (Hrect _ Hc).
Qed.

(** The label column of a labelled table, row by row. *)
Lemma label_column (df0 df : Table) (ats : list string) :
  label_table df0 ats = Ok df →
  ∃ (col : Series) (ts times : list Timestamp) (lab : Series),
    getitem df0 "timestamp" = Ok col ∧
    to_datetime_series col = Ok (Datetime <$> ts) ∧
    Forall2 (λ s t, to_datetime (Str s) = Ok t) ats times ∧
    getitem df "timestamp" = Ok (Datetime <$> ts) ∧
    getitem df "anomaly" = Ok lab ∧
    nrows df = nrows df0 ∧
    (rectangular df0 →
     length ts = nrows df ∧ length lab = nrows df ∧
     ∀ i t, ts !! i = Some t →
       lab !! i = Some (Int (if bool_decide (t ∈ times) then 1 else 0))).
Proof.
  intros (col & ts & times & Hcol & Hts & Hlts & Htimes & Hn & Hcols)%label_table_Ok.
  eexists col, ts, times, _. split; [done |]. split; [done |]. split; [done |].
  split.
  { unfold getitem. rewrite Hcols, lookup_col_assign_ne by done.
    by rewrite lookup_col_assign_eq. }
  split.
  { unfold getitem. rewrite Hcols, lookup_col_assign_eq. reflexivity. }
  split; [done |]. intros Hrect.
  assert (length ts = nrows df0) as Hlen.
  { rewrite Hlts. by eapply getitem_length. }
  rewrite Hn. split; [done |].
  destruct ats as [|a ats].
  - inversion Htimes; subst. split; [by rewrite length_replicate |].
    intros i t Hi. rewrite bool_decide_eq_false_2 by apply not_elem_of_nil.
    apply lookup_replicate_2. rewrite <- Hlen. by eapply lookup_lt_Some.
  - split.
    { rewrite length_zip_with, length_replicate. unfold isin.
      rewrite !length_fmap. lia. }
    intros i t Hi. rewrite lookup_zip_with, (isin_lookup _ _ _ _ Hi). cbn.
    rewrite lookup_replicate_2 by (rewrite <- Hlen; by eapply lookup_lt_Some).
    cbn. by case_bool_decide.
Qed.

(** What [process_csv_file] returns for the rows of the file it read:
    [ts] is the timestamp column as the one call of [pd.to_datetime] on
    it converts it, [times] the anomaly timestamps, converted one by one. *)
Lemma processed_label_column path ats st df st' :
  process_csv_file path ats st = (Ok df, st') →
  ∃ text (df0 : Table) (col : Series) (ts times : list Timestamp) (lab : Series),
    read_text (fs st) path = Ok text ∧
    parse_csv text = Ok df0 ∧
    getitem df0 "timestamp" = Ok col ∧
    to_datetime_series col = Ok (Datetime <$> ts) ∧
    Forall2 (λ s t, to_datetime (Str s) = Ok t) ats times ∧
    getitem df "anomaly" = Ok lab ∧
    (rectangular df0 →
     length ts = nrows df ∧ length lab = nrows df ∧
     ∀ i, i < nrows df →
       ∃ t (l : Z),
         ts !! i = Some t ∧ lab !! i = Some (Int l) ∧
         (l = 0 ∨ l = 1)%Z ∧ (l = 1%Z ↔ t ∈ times)).
Proof.
  intros (-> & text & df0 & Hread & Hparse & Hl)%process_csv_file_Ok.
  destruct (label_column _ _ _ Hl)
    as (col & ts & times & lab & Hcol & Hts & Htimes & _ & Hlab & _ & Hrows).
  exists text, df0, col, ts, times, lab. repeat (split; [done |]).
  intros Hrect. destruct (Hrows Hrect) as (Hlts & Hllab & Hi).
  split; [done |]. split; [done |]. intros i Hlt.
  destruct (lookup_lt_is_Some_2 ts i) as [t Ht]; [lia |].
  exists t, (if bool_decide (t ∈ times) then 1 else 0)%Z.
  split; [done |]. split; [by apply Hi |].
  case_bool_decide; split; auto; split; [done | lia | done | done].
Qed.

(** An entry that was counted as processed: its file was read and parsed,
    the labelled table was serialised, and that text was written (after the
    directory was made in mirrored mode). *)
Lemma loop_body_processed data out k ats st st' :
  loop_body data out (k, ats) st = (Ok tt, st') →
  processed_count st' = processed_count st + 1 →
  ∃ text (df0 df : Table) (lab : Series) m1,
    read_text (fs st) (path_join data k) = Ok text ∧
    parse_csv text = Ok df0 ∧
    label_table df0 ats = Ok df ∧
    getitem df "anomaly" = Ok lab ∧
    match truthy out with
    | Some o => makedirs (fs st) (path_dirname (path_join o k))
    | None => (Ok tt, fs st)
    end = (Ok tt, m1) ∧
    write_text m1
      (match truthy out with Some o => path_join o k | None => path_join data k end)
      (format_csv df) = (Ok tt, fs st') ∧
    stdout st' =
      (stdout st ++
       ["Processing: " +:+ k;
        "  - Total points: " +:+ pretty (nrows df);
        "  - Anomaly points: " +:+ pretty (series_sum lab);
        "  - Normal points: " +:+ pretty (Z.of_nat (nrows df) - series_sum lab)%Z;
        match truthy out with
        | Some o => "  - Saved to: " +:+ path_join o k
        | None => "  - Updated original file"
        end])%list.
Proof.
  intros Hbody Hcount.
  destruct (path_exists (fs st) (path_join data k)) eqn:Hex.
  - destruct (process_csv_file (path_join data k) ats st) as [[df|e] st1] eqn:Hp.
    + destruct (process_csv_file_Ok _ _ _ _ _ Hp) as (-> & text & df0 & Hread & Hparse & Hl).
      destruct (label_table_anomaly _ _ _ Hl) as [lab Hlab].
      rewrite (loop_body_labelled _ _ _ _ _ _ _ _ Hex Hp Hlab) in Hbody.
      cbn zeta in Hbody. exists text, df0, df, lab.
      destruct (truthy out) as [o|].
      * destruct (makedirs _ _) as [[[]|e] m1] eqn:Hmk;
          [destruct (write_text _ _ _) as [[[]|e] m2] eqn:Hw |];
          injection Hbody as <-; cbn in Hcount; try lia.
        exists m1. repeat (split; [done |]). cbn. by rewrite <- app_assoc.
      * destruct (write_text _ _ _) as [[[]|e] m2] eqn:Hw;
          injection Hbody as <-; cbn in Hcount; try lia.
        exists (fs st). repeat (split; [done |]). cbn. by rewrite <- app_assoc.
    + rewrite (loop_body_raises _ _ _ _ _ _ _ Hex Hp) in Hbody.
      injection Hbody as <-. cbn in Hcount. lia.
  - rewrite (loop_body_missing _ _ _ _ _ Hex) in Hbody.
    injection Hbody as <-. cbn in Hcount. lia.
Qed.

Lemma label_table_rectangular (df0 df : Table) ats :
  label_table df0 ats = Ok df → rectangular df0 → rectangular df.
Proof.
  intros (col & ts & times & Hcol & _ & Hlts & _ & Hn & Hcols)%label_table_Ok Hrect.
  assert (length ts = nrows df0) as Hlen.
  { rewrite Hlts. by eapply getitem_length. }
  unfold rectangular. rewrite Hcols, Hn.
  apply assign_col_Forall; [apply assign_col_Forall |]; cbn.
  - done.
  - intros _. by rewrite length_fmap.
  - intros _. destruct ats.
    + by rewrite length_replicate.
    + rewrite length_zip_with, length_replicate. unfold isin.
      rewrite !length_fmap. lia.
Qed.



(** C2: for an entry counted as processed, the table whose text is written
    has as many rows as the table parsed from the data file, every column
    of it has one cell per row when the input's columns had, and the
    reported total is that row count. *)
Theorem labelling_keeps_row_count data out k ats st st' :
  loop_body data out (k, ats) st = (Ok tt, st') →
  processed_count st' = processed_count st + 1 →
  ∃ text (df0 df : Table) m1,
    read_text (fs st) (path_join data k) = Ok text ∧
    parse_csv text = Ok df0 ∧
    process_csv_file (path_join data k) ats st = (Ok df, st) ∧
    write_text m1
      (match truthy out with Some o => path_join o k | None => path_join data k end)
      (format_csv df) = (Ok tt, fs st') ∧
    len df = len df0 ∧
    (rectangular df0 → rectangular df) ∧
    "  - Total points: " +:+ pretty (len df0) ∈ stdout st'.
Proof.
  intros Hbody Hcount.
  destruct (loop_body_processed _ _ _ _ _ _ Hbody Hcount)
    as (text & df0 & df & lab & m1 & Hread & Hparse & Hl & _ & _ & Hw & Hout).
  pose proof Hl as (col & ts & times & _ & _ & _ & _ & Hn & _)%label_table_Ok.
  exists text, df0, df, m1. repeat (split; [done |]).
  split. { rewrite process_csv_file_eq, Hread. cbn. rewrite Hparse. cbn. by rewrite Hl. }
  split; [done |]. split; [done |].
  split; [by apply label_table_rectangular with ats |].
  rewrite Hout. unfold len. rewrite <- Hn.
  apply elem_of_app. right. right. left.
Qed.

(** C3: with an empty anomaly list, the label column of the labelled table
    is 0 in every row, its sum is 0, and the iteration reports
    "Anomaly points: 0". *)
Theorem empty_anomaly_list_labels_all_zero data out k st df :
  path_exists (fs st) (path_join data k) = true →
  process_csv_file (path_join data k) [] st = (Ok df, st) →
  getitem df "anomaly" = Ok (replicate (nrows df) (Int 0)) ∧
  series_sum (replicate (nrows df) (Int 0)) = 0%Z ∧
  ∃ st' before after,
    loop_body data out (k, []) st = (Ok tt, st') ∧
    stdout st' = (before ++ "  - Anomaly points: 0" :: after)%list.
Proof.
  intros Hex Hp.
  destruct (process_csv_file_Ok _ _ _ _ _ Hp) as (_ & text & df0 & _ & _ & Hl).
  pose proof Hl as (col & ts & times & _ & _ & _ & _ & Hn & Hcols)%label_table_Ok.
  assert (getitem df "anomaly" = Ok (replicate (nrows df) (Int 0))) as Hlab.
  { unfold getitem. by rewrite Hcols, lookup_col_assign_eq, Hn. }
  assert (∀ n, series_sum (replicate n (Int 0)) = 0%Z) as Hsum.
  { intros n. unfold series_sum.
    induction n as [|n IH]; [done |]. cbn [replicate foldr]. by rewrite IH. }
  split; [done |]. split; [done |].
  rewrite (loop_body_labelled _ _ _ _ _ _ _ _ Hex Hp Hlab). cbn zeta.
  rewrite Hsum. change (pretty 0%Z) with "0".
  set (pre := (stdout st ++ ["Processing: " +:+ k;
                             "  - Total points: " +:+ pretty (nrows df)])%list).
  assert (∀ rest,
    (stdout st ++ ("Processing: " +:+ k) :: ("  - Total points: " +:+ pretty (nrows df))
       :: ("  - Anomaly points: " +:+ "0") :: rest)%list
    = (pre ++ "  - Anomaly points: 0" :: rest)%list) as Hpre.
  { intros rest. unfold pre. by rewrite <- app_assoc. }
  destruct (truthy out) as [o|].
  - destruct (makedirs _ _) as [[[]|e] m1];
      [destruct (write_text _ _ _) as [[[]|e] m2] |];
      eexists _, pre, _; (split; [reflexivity |]);
      cbn [stdout errored printed with_fs]; rewrite <- !app_assoc; apply Hpre.
  - destruct (write_text _ _ _) as [[[]|e] m2];
      eexists _, pre, _; (split; [reflexivity |]);
      cbn [stdout errored printed with_fs]; rewrite <- !app_assoc; apply Hpre.
Qed.


(** ** Claims about failures *)

(** C4: when the label index cannot be read or is not well-formed, the run
    raises the loader's exception; it has printed "Loading labels..." and
    nothing else, the file system is as it was, and no entry was counted. *)
Theorem label_load_failure_aborts data lf out st e :
  (read_text (fs st) lf = Raise e ∨
   ∃ text, read_text (fs st) lf = Ok text ∧ json_load text = Raise e) →
  ∃ st',
    combine_datasets_with_labels data lf out st = (Raise e, st') ∧
    fs st' = fs st ∧
    stdout st' = (stdout st ++ ["Loading labels..."])%list ∧
    processed_count st' = processed_count st ∧
    error_count st' = error_count st.
Proof.
  intros Hload. rewrite (combine_load_fails _ _ _ _ _ Hload).
  eexists. split; [reflexivity |]. done.
Qed.




(** C10: past the two existence checks, [main] runs the pipeline without
    an output directory (in place) for every answer other than "2", and
    with the output directory for the answer "2" alone. *)
Theorem prompt_selects_mode choice st :
  path_exists (fs st) data_directory = true →
  path_exists (fs st) labels_file = true →
  let asked := printed st
    ["=== Processing datasets with anomaly labels ===";
     "Data directory: " +:+ data_directory;
     "Labels file: " +:+ labels_file;
     "";
     prompt] in
  (choice ≠ "2" →
   main choice st =
   combine_datasets_with_labels data_directory labels_file None
     (printed asked ["Processing files in place (original files will be modified)..."])) ∧
  (choice = "2" →
   main choice st =
   combine_datasets_with_labels data_directory labels_file (Some output_directory)
     (printed asked ["Creating output directory: " +:+ output_directory])) ∧
  truthy None = None ∧
  truthy (Some output_directory) = Some output_directory.
Proof.
  intros Hdata Hlabels asked.
  split; [|split; [|done]].
  - intros Hne. unfold main. unfold_M. cbn [fs].
    rewrite Hdata. cbn [negb fs]. rewrite Hlabels. cbn [negb].
    rewrite bool_decide_eq_false_2 by done.
    unfold asked, printed. cbn [fs stdout processed_count error_count].
    by rewrite <- !app_assoc.
  - intros ->. unfold main. unfold_M. cbn [fs].
    rewrite Hdata. cbn [negb fs]. rewrite Hlabels. cbn [negb].
    rewrite bool_decide_eq_true_2 by done.
    unfold asked, printed. cbn [fs stdout processed_count error_count].
    by rewrite <- !app_assoc.
Qed.

(** ** Reruns in mirrored mode *)

Section Mirrored.
Hypothesis laws : FsLaws.




Lemma combine_Ok data lf out st st' text labels :
  read_text (fs st) lf = Ok text →
  json_load text = Ok (JsonObject labels) →
  combine_datasets_with_labels data lf out st = (Ok tt, st') →
  ∃ m st3,
    match truthy out with Some o => makedirs (fs st) o | None => (Ok tt, fs st) end
      = (Ok tt, m) ∧
    for_each (loop_body data out) labels
      (mkState m (stdout st ++ ["Loading labels..."]) 0 0) = (Ok tt, st3) ∧
    fs st' = fs st3 ∧
    processed_count st' = processed_count st3 ∧
    error_count st' = error_count st3.
Proof.
  intros Hread Hjson Hrun.
  destruct (match truthy out with Some o => makedirs (fs st) o | None => (Ok tt, fs st) end)
    as [[[]|e] m] eqn:Hmk.
  - destruct (for_each_loop_body data out labels
      (mkState m (stdout st ++ ["Loading labels..."]) 0 0)) as (st3 & Hloop & _).
    rewrite (combine_loaded _ _ _ _ _ _ _ _ Hread Hjson Hmk Hloop) in Hrun.
    injection Hrun as <-. by exists m, st3.
  - exfalso. revert Hrun.
    unfold combine_datasets_with_labels, load_labels. unfold_M.
    cbn [fs]. rewrite Hread, Hjson.
    destruct (truthy out) as [o|]; [|done].
    cbn [fs stdout processed_count error_count]. by rewrite Hmk.
Qed.



End Mirrored.

(** ** Further properties of the script *)

Lemma mapM_raises {A B} (f : A → result B) (l : list A) a e0 :
  a ∈ l → f a = Raise e0 → ∃ e, mapM f l = Raise e.
Proof.
  intros Hin Ha. destruct (mapM f l) as [k|e] eqn:Hl; [|eauto].
  apply mapM_Ok in Hl. apply list_elem_of_lookup in Hin as [i Hi].
  destruct (Forall2_lookup_l _ _ _ _ _ Hl Hi) as (t & _ & Ht). congruence.
Qed.

Lemma label_table_eq (df0 : Table) ats (col : Series) (ts times : list Timestamp) :
  getitem df0 "timestamp" = Ok col →
  to_datetime_series col = Ok (Datetime <$> ts) →
  Forall2 (λ s t, to_datetime (Str s) = Ok t) ats times →
  label_table df0 ats =
  Ok (mkDataFrame (nrows df0)
        (assign_col "anomaly"
           (match ats with
            | [] => replicate (nrows df0) (Int 0)
            | _ => zip_with (λ (m : bool) x, if m then Int 1 else x)
                     (isin (Datetime <$> ts) times) (replicate (nrows df0) (Int 0))
            end)
           (assign_col "timestamp" (Datetime <$> ts) (columns df0)))).
Proof.
  intros Hcol Hser Htimes. unfold label_table. rewrite Hcol.
  cbn. rewrite Hser. cbn. destruct ats as [|a ats]; [done |].
  apply mapM_Ok in Htimes. rewrite Htimes. cbn.
  unfold getitem at 1, setitem_scalar, setitem. cbn [columns nrows].
  rewrite lookup_col_assign_ne by done. rewrite lookup_col_assign_eq. cbn.
  unfold loc_setitem, setitem. cbn [columns nrows].
  rewrite lookup_col_assign_eq. cbn [default]. by rewrite assign_col_twice.
Qed.


Lemma parsed_elem_of {A B} (f : A → result B) (l : list A) (k : list B) t :
  Forall2 (λ s t, f s = Ok t) l k → t ∈ k ↔ ∃ s, s ∈ l ∧ f s = Ok t.
Proof.
  intros Hall. split.
  - intros [i Hi]%list_elem_of_lookup.
    destruct (Forall2_lookup_r _ _ _ _ _ Hall Hi) as (s & Hs & Hst).
    exists s. split; [|done]. apply list_elem_of_lookup. eauto.
  - intros (s & [i Hi]%list_elem_of_lookup & Hst).
    destruct (Forall2_lookup_l _ _ _ _ _ Hall Hi) as (t' & Ht' & Hst').
    assert (t' = t) as -> by congruence. apply list_elem_of_lookup. eauto.
Qed.

Lemma isin_ext (c : Series) (times1 times2 : list Timestamp) :
  (∀ t, t ∈ times1 ↔ t ∈ times2) → isin c times1 = isin c times2.
Proof.
  intros Hiff. unfold isin. apply list_fmap_ext. intros i v _.
  destruct v; try done. by apply bool_decide_ext.
Qed.

Lemma series_sum_zeros n : series_sum (replicate n (Int 0) : Series) = 0%Z.
Proof.
  unfold series_sum. induction n as [|n IH]; [done |].
  cbn [replicate foldr]. by rewrite IH.
Qed.

Lemma series_sum_mask (ts times : list Timestamp) :
  series_sum
    (zip_with (λ (m : bool) (x : value Timestamp), if m then Int 1 else x)
       (isin (Datetime <$> ts) times) (replicate (length ts) (Int 0)))
  = Z.of_nat (length (filter (λ t, t ∈ times) ts)).
Proof.
  unfold series_sum, isin. induction ts as [|t ts IH]; [done |].
  cbn [fmap list_fmap length replicate zip_with foldr]. rewrite IH.
  rewrite filter_cons. destruct (decide (t ∈ times)) as [Hin | Hin].
  - rewrite bool_decide_eq_true_2 by done. cbn [length]. lia.
  - rewrite bool_decide_eq_false_2 by done. done.
Qed.

Lemma mask_none (ts times : list Timestamp) (v0 v1 : value Timestamp) :
  (∀ t, t ∈ ts → t ∉ times) →
  zip_with (λ (m : bool) (x : value Timestamp), if m then v1 else x)
    (isin (Datetime <$> ts) times) (replicate (length ts) v0)
  = replicate (length ts) v0.
Proof.
  unfold isin. induction ts as [|t ts IH]; intros Hnone; [done |].
  cbn [fmap list_fmap length replicate zip_with].
  rewrite bool_decide_eq_false_2 by (apply Hnone; left).
  rewrite IH; [done |]. intros t' Ht'. apply Hnone. by right.
Qed.

(** X1: [main] stops after its header when the data directory or the
    labels file does not exist: it prints the matching error line, does
    not prompt, loads nothing and leaves the file system as it was. *)
Theorem main_stops_when_a_path_is_missing choice st :
  path_exists (fs st) data_directory = false ∨
  path_exists (fs st) labels_file = false →
  ∃ st' message,
    main choice st = (Ok tt, st') ∧
    fs st' = fs st ∧
    message =
      (if path_exists (fs st) data_directory
       then "Error: Labels file not found: " +:+ labels_file
       else "Error: Data directory not found: " +:+ data_directory) ∧
    stdout st' =
      (stdout st ++
       ["=== Processing datasets with anomaly labels ===";
        "Data directory: " +:+ data_directory;
        "Labels file: " +:+ labels_file;
        "";
        message])%list.
Proof.
  intros Hmissing. unfold main. unfold_M. cbn [fs].
  destruct (path_exists (fs st) data_directory) eqn:Hdata; cbn [negb fs].
  - destruct Hmissing as [? | Hlabels]; [done |]. rewrite Hlabels. cbn [negb].
    eexists _, _. split; [reflexivity |]. split; [done |]. split; [done |].
    cbn. by rewrite <- !app_assoc.
  - eexists _, _. split; [reflexivity |]. split; [done |]. split; [done |].
    cbn. by rewrite <- !app_assoc.
Qed.

(** X2: in mirrored mode a failure to make the output directory itself is
    not caught: the run raises that exception after printing only
    "Loading labels...", before any entry is looked at. *)
Theorem output_directory_failure_aborts data lf out o st text labels e m' :
  read_text (fs st) lf = Ok text →
  json_load text = Ok (JsonObject labels) →
  truthy out = Some o →
  makedirs (fs st) o = (Raise e, m') →
  combine_datasets_with_labels data lf out st =
  (Raise e, with_fs (printed st ["Loading labels..."]) m').
Proof.
  intros Hread Hjson Hout Hmk.
  unfold combine_datasets_with_labels, load_labels, os_makedirs. unfold_M.
  cbn [fs]. rewrite Hread, Hjson, Hout.
  cbn [fs stdout processed_count error_count]. by rewrite Hmk.
Qed.




(** X6: the "Anomaly points" of a file is the sum of its label column,
    which is the number of rows whose timestamp, as the one conversion of
    the whole timestamp column gives it, is among the parsed anomaly
    timestamps (not the number of anomaly timestamps); it lies between 0
    and the row count, so "Normal points" is never negative. *)
Theorem anomaly_points_count_matching_rows path ats st df st' :
  process_csv_file path ats st = (Ok df, st') →
  ∃ text (df0 : Table) (col : Series) (ts times : list Timestamp) (lab : Series),
    read_text (fs st) path = Ok text ∧
    parse_csv text = Ok df0 ∧
    getitem df0 "timestamp" = Ok col ∧
    to_datetime_series col = Ok (Datetime <$> ts) ∧
    Forall2 (λ s t, to_datetime (Str s) = Ok t) ats times ∧
    getitem df "anomaly" = Ok lab ∧
    (rectangular df0 →
     series_sum lab = Z.of_nat (length (filter (λ t, t ∈ times) ts)) ∧
     (0 ≤ series_sum lab ≤ Z.of_nat (len df))%Z).
Proof.
  intros (-> & text & df0 & Hread & Hparse & Hl)%process_csv_file_Ok.
  pose proof Hl as
    (col & ts & times & Hcol & Hts & Hlts & Htimes & Hn & Hcols)%label_table_Ok.
  eexists text, df0, col, ts, times, _. repeat (split; [done |]).
  split. { unfold getitem. rewrite Hcols, lookup_col_assign_eq. reflexivity. }
  intros Hrect.
  assert (length ts = nrows df0) as Hlen.
  { rewrite Hlts. by eapply getitem_length. }
  assert (length (filter (λ t, t ∈ times) ts) ≤ nrows df0)%nat as Hle.
  { rewrite <- Hlen. apply length_filter. }
  unfold len. rewrite Hn, <- Hlen in *.
  destruct ats as [|a ats].
  - inversion Htimes; subst. rewrite series_sum_zeros.
    assert (filter (λ t, t ∈ []) ts = []) as ->.
    { clear. induction ts as [|t ts IH]; [done |].
      rewrite filter_cons_False; [done | apply not_elem_of_nil]. }
    cbn. lia.
  - rewrite series_sum_mask. lia.
Qed.

(** X7: the labelled table depends on the anomaly list only through the
    timestamps that occur in it: listing them in another order, or more
    than once, gives the same table. *)
Theorem labels_ignore_order_and_repeats path ats1 ats2 st df st' :
  process_csv_file path ats1 st = (Ok df, st') →
  (∀ a, a ∈ ats1 ↔ a ∈ ats2) →
  process_csv_file path ats2 st = (Ok df, st').
Proof.
  intros (-> & text & df0 & Hread & Hparse & Hl)%process_csv_file_Ok Hsame.
  pose proof Hl as
    (col & ts & times1 & Hcol & Hts & _ & Htimes1 & Hn & Hcols)%label_table_Ok.
  assert (∃ times2, Forall2 (λ s t, to_datetime (Str s) = Ok t) ats2 times2)
    as [times2 Htimes2].
  { assert (∀ a, a ∈ ats2 → ∃ t, to_datetime (Str a) = Ok t) as Hok.
    { intros a [i Hi]%Hsame%list_elem_of_lookup.
      destruct (Forall2_lookup_l _ _ _ _ _ Htimes1 Hi) as (t & _ & Ht). eauto. }
    clear -Hok. induction ats2 as [|a ats2 IH].
    - exists []. constructor.
    - destruct (Hok a) as [t Ht]; [left |].
      destruct IH as [times2 IH]; [intros a' Ha'; apply Hok; by right |].
      exists (t :: times2). by constructor. }
  assert (∀ t, t ∈ times1 ↔ t ∈ times2) as Htimes.
  { intros t.
    rewrite (parsed_elem_of (λ s, to_datetime (Str s)) _ _ t Htimes1).
    rewrite (parsed_elem_of (λ s, to_datetime (Str s)) _ _ t Htimes2).
    split; intros (s & Hs & Hst); exists s; (split; [by apply Hsame | done]). }
  rewrite process_csv_file_eq, Hread. cbn. rewrite Hparse. cbn.
  rewrite (label_table_eq _ _ _ _ _ Hcol Hts Htimes2). f_equal. f_equal.
  destruct df as [n cols]. cbn [nrows columns] in Hn, Hcols. subst n cols.
  f_equal. f_equal.
  destruct ats1 as [|a1 ats1], ats2 as [|a2 ats2]; try done.
  - exfalso. apply (not_elem_of_nil a2), Hsame. left.
  - exfalso. apply (not_elem_of_nil a1), Hsame. left.
  - by rewrite (isin_ext _ _ _ Htimes).
Qed.

(** X8: anomaly timestamps that equal none of the timestamps the
    conversion of the column gives label nothing: the table is the one an
    empty anomaly list gives. *)
Theorem unmatched_anomaly_timestamps_label_nothing path ats st df st' text df0 col ts :
  process_csv_file path ats st = (Ok df, st') →
  read_text (fs st) path = Ok text →
  parse_csv text = Ok df0 →
  rectangular df0 →
  getitem df0 "timestamp" = Ok col →
  to_datetime_series col = Ok (Datetime <$> ts) →
  (∀ t a, t ∈ ts → a ∈ ats → to_datetime (Str a) = Ok t → False) →
  process_csv_file path [] st = (Ok df, st').
Proof.
  intros (-> & text' & df0' & Hread' & Hparse' & Hl)%process_csv_file_Ok
    Hread Hparse Hrect Hcol Hts Hnone.
  rewrite Hread in Hread'. injection Hread' as <-.
  rewrite Hparse in Hparse'. injection Hparse' as <-.
  pose proof Hl as
    (col' & ts' & times & Hcol' & Hts' & Hlts & Htimes & Hn & Hcols)%label_table_Ok.
  rewrite Hcol in Hcol'. injection Hcol' as <-.
  assert (ts' = ts) as ->.
  { rewrite Hts in Hts'. injection Hts' as Heq.
    symmetry. revert Heq. apply list_fmap_eq_inj. by intros ?? [=]. }
  assert (length ts = nrows df0) as Hlen.
  { rewrite Hlts. by eapply getitem_length. }
  assert (∀ t, t ∈ ts → t ∉ times) as Hfree.
  { intros t Ht Hin.
    apply (parsed_elem_of (λ s, to_datetime (Str s)) _ _ t Htimes) in Hin
      as (a & Ha & Hat).
    by apply (Hnone t a). }
  rewrite process_csv_file_eq, Hread. cbn. rewrite Hparse. cbn.
  rewrite (label_table_eq _ [] _ _ [] Hcol Hts) by constructor. f_equal. f_equal.
  destruct df as [n cols]. cbn [nrows columns] in Hn, Hcols. subst n cols.
  f_equal. f_equal. destruct ats as [|a ats]; [done |].
  rewrite <- Hlen. by rewrite mask_none.
Qed.

(** X9: an empty label index runs the loop zero times: the run ends
    normally, reports 0 processed and 0 errors, and the file system is
    what making the output directory (if any) left. *)
Theorem empty_index_processes_nothing data lf out st text m :
  read_text (fs st) lf = Ok text →
  json_load text = Ok (JsonObject []) →
  match truthy out with Some o => makedirs (fs st) o | None => (Ok tt, fs st) end
    = (Ok tt, m) →
  combine_datasets_with_labels data lf out st =
  (Ok tt,
   mkState m
     (stdout st ++
      ["Loading labels..."; nl +:+ "Processing complete!";
       "Successfully processed: 0 files"; "Errors encountered: 0 files"])
     0 0).
Proof.
  intros Hread Hjson Hmk.
  rewrite (combine_loaded data lf out st text [] m
             (mkState m (stdout st ++ ["Loading labels..."]) 0 0) Hread Hjson Hmk eq_refl).
  unfold printed. cbn [fs stdout processed_count error_count].
  by rewrite <- app_assoc.
Qed.

(** X10: an output directory given as the empty string is not an output
    directory: the run is the in-place run, which writes every processed
    file over its original. *)
Theorem empty_output_dir_runs_in_place data lf st :
  combine_datasets_with_labels data lf (Some "") st =
  combine_datasets_with_labels data lf None st.
Proof.
  unfold combine_datasets_with_labels.
  assert (∀ l st0, for_each (loop_body data (Some "")) l st0
                   = for_each (loop_body data None) l st0) as Hloop.
  { intros l. induction l as [|[k ats] l IH]; intros st0; [done |].
    rewrite !for_each_cons.
    assert (loop_body data (Some "") (k, ats) st0 = loop_body data None (k, ats) st0)
      as -> by reflexivity.
    destruct (loop_body data None (k, ats) st0) as [[[]|e] st1]; [apply IH | done]. }
  unfold_M. destruct (load_labels lf _) as [[labels|e] st1]; [|done].
  cbn [truthy]. rewrite bool_decide_eq_true_2 by done.
  destruct (items labels) as [entries|e]; [|done].
  by rewrite Hloop.
Qed.

Section Destinations.
Hypothesis laws : FrameLaws.

(** The one path an iteration may write to. *)
Lemma loop_body_frame data out k ats st st' :
  loop_body data out (k, ats) st = (Ok tt, st') →
  ∀ p,
    p ≠ match truthy out with Some o => path_join o k | None => path_join data k end →
    file_text (fs st') p = file_text (fs st) p.
Proof.
  intros Hbody p Hp.
  destruct (path_exists (fs st) (path_join data k)) eqn:Hex.
  - destruct (process_csv_file (path_join data k) ats st) as [[df|e] st1] eqn:Hpr.
    + destruct (process_csv_file_Ok _ _ _ _ _ Hpr) as (-> & text & df0 & _ & _ & Hl).
      destruct (label_table_anomaly _ _ _ Hl) as [lab Hlab].
      rewrite (loop_body_labelled _ _ _ _ _ _ _ _ Hex Hpr Hlab) in Hbody.
      cbn zeta in Hbody.
      destruct (truthy out) as [o|].
      * destruct (makedirs _ _) as [[[]|e] m1] eqn:Hmk;
          [destruct (write_text _ _ _) as [[[]|e] m2] eqn:Hw |];
          injection Hbody as <-; cbn [fs errored printed with_fs].
        -- rewrite (write_frame laws _ _ _ _ _ _ Hw Hp).
           apply (makedirs_frame laws _ _ _ _ _ Hmk).
        -- rewrite (write_frame laws _ _ _ _ _ _ Hw Hp).
           apply (makedirs_frame laws _ _ _ _ _ Hmk).
        -- apply (makedirs_frame laws _ _ _ _ _ Hmk).
      * destruct (write_text _ _ _) as [[[]|e] m2] eqn:Hw;
          injection Hbody as <-; cbn [fs errored printed with_fs];
          apply (write_frame laws _ _ _ _ _ _ Hw Hp).
    + rewrite (loop_body_raises _ _ _ _ _ _ _ Hex Hpr) in Hbody.
      by injection Hbody as <-.
  - rewrite (loop_body_missing _ _ _ _ _ Hex) in Hbody. by injection Hbody as <-.
Qed.

(** X11: an entry counted as processed leaves the labelled text of its
    data file at its destination (the data file itself in place, the
    mirrored path otherwise), and the text of no other file changes. *)
Theorem processed_entry_leaves_labelled_text data out k ats st st' :
  loop_body data out (k, ats) st = (Ok tt, st') →
  processed_count st' = processed_count st + 1 →
  ∃ df : Table,
    process_csv_file (path_join data k) ats st = (Ok df, st) ∧
    file_text (fs st')
      (match truthy out with Some o => path_join o k | None => path_join data k end)
      = Some (format_csv df) ∧
    ∀ p,
      p ≠ match truthy out with Some o => path_join o k | None => path_join data k end →
      file_text (fs st') p = file_text (fs st) p.
Proof.
  intros Hbody Hcount.
  destruct (loop_body_processed _ _ _ _ _ _ Hbody Hcount)
    as (text & df0 & df & lab & m1 & Hread & Hparse & Hl & _ & _ & Hw & _).
  exists df. split.
  { rewrite process_csv_file_eq, Hread. cbn. rewrite Hparse. cbn. by rewrite Hl. }
  split; [apply (write_read laws _ _ _ _ Hw) |].
  by apply loop_body_frame with ats.
Qed.

(** X12: a run in place changes the text of no file other than the data
    files the label index names. *)
Theorem in_place_run_touches_only_indexed_files data lf out st st' text labels :
  truthy out = None →
  read_text (fs st) lf = Ok text →
  json_load text = Ok (JsonObject labels) →
  combine_datasets_with_labels data lf out st = (Ok tt, st') →
  ∀ p, p ∉ (λ e, path_join data e.1) <$> labels →
       file_text (fs st') p = file_text (fs st) p.
Proof.
  intros Hout Hread Hjson Hrun p Hp.
  destruct (combine_Ok _ _ _ _ _ _ _ Hread Hjson Hrun)
    as (m & st3 & Hmk & Hloop & Hfs & _ & _).
  rewrite Hout in Hmk. injection Hmk as <-. rewrite Hfs.
  change (fs st) with
    (fs (mkState (fs st) (stdout st ++ ["Loading labels..."]) 0 0)).
  revert Hloop Hp. generalize (mkState (fs st) (stdout st ++ ["Loading labels..."]) 0 0).
  clear -laws Hout. induction labels as [|[k ats] l IH]; intros st0 Hloop Hp.
  - by injection Hloop as <-.
  - rewrite for_each_cons in Hloop.
    destruct (loop_body_step data out (k, ats) st0) as (st1 & Hst1 & _).
    rewrite Hst1 in Hloop. rewrite fmap_cons, not_elem_of_cons in Hp.
    destruct Hp as [Hp1 Hp2]. rewrite (IH _ Hloop Hp2).
    apply (loop_body_frame _ _ _ _ _ _ Hst1). by rewrite Hout.
Qed.

End Destinations.

End Properties.

(** * The scenario of the specification, and instances of the claims *)

Import Concrete.

Lemma fs_read_insert_dir (m : gmap string node) d p :
  m !! d = None →
  file_text (<[d := Dir]> m : FS) p = file_text (m : FS) p.
Proof.
  intros Hd. unfold file_text. cbn. unfold fs_read.
  destruct (decide (p = d)) as [-> | Hne].
  - by rewrite lookup_insert_eq, Hd.
  - by rewrite lookup_insert_ne.
Qed.

Lemma mkdir_frame (m m' : gmap string node) d r p :
  mkdir m d = (r, m') → file_text (m' : FS) p = file_text (m : FS) p.
Proof.
  unfold mkdir. destruct (m !! d) eqn:Hd.
  - by intros [= _ <-].
  - destruct (parent_error m d); intros [= _ <-]; [done |].
    by apply fs_read_insert_dir.
Qed.

Lemma makedirs_chain_frame chain :
  ∀ (m m' : gmap string node) r p,
    makedirs_chain chain m = (r, m') →
    file_text (m' : FS) p = file_text (m : FS) p.
Proof.
  induction chain as [|name heads IH]; intros m m' r p; cbn [makedirs_chain].
  - by intros [= _ <-].
  - match goal with
    | |- (let '(_, _) := ?X in _) = _ → _ =>
        assert (∀ r1 m1, X = (r1, m1) → file_text (m1 : FS) p = file_text (m : FS) p)
          as Hpre; [| destruct X as [r1 m1]]
    end.
    + destruct heads as [|head heads']; [by intros ?? [= _ <-] |].
      destruct (bool_decide (is_Some (m !! head))); [by intros ?? [= _ <-] |].
      destruct (makedirs_chain (head :: heads') m) as [[[]|e] m1'] eqn:Hc;
        pose proof (IH _ _ _ p Hc) as Hm1.
      * by intros ?? [= _ <-].
      * destruct (bool_decide _); by intros ?? [= _ <-].
    + specialize (Hpre _ _ eq_refl). destruct r1 as [[]|e]; [|by intros [= _ <-]].
      destruct (mkdir m1 name) as [[[]|e] m2] eqn:Hmk;
        pose proof (mkdir_frame _ _ _ _ p Hmk) as Hm2.
      * intros [= _ <-]. congruence.
      * destruct (is_dir m2 name); intros [= _ <-]; congruence.
Qed.

Lemma fs_write_cases (m m' : gmap string node) p text r :
  fs_write m p text = (r, m') →
  (r = Ok tt ∧ m' = <[p := File text]> m) ∨ (∃ e, r = Raise e ∧ m' = m).
Proof.
  unfold fs_write.
  destruct (m !! p) as [[|]|]; [| intros [= <- <-]; right; eauto |];
    (destruct (parent_error m p); intros [= <- <-]; [right | left]; eauto).
Qed.

Lemma concrete_fs_laws : FsLaws.
Proof.
  split; [split |].
  - intros m p text m' Hw. apply fs_write_cases in Hw as [[_ ->] | (e & [=] & _)].
    unfold file_text. cbn. unfold fs_read. by rewrite lookup_insert_eq.
  - intros m p text r m' p' Hw Hne.
    apply fs_write_cases in Hw as [[_ ->] | (e & _ & ->)]; [|done].
    unfold file_text. cbn. unfold fs_read. by rewrite lookup_insert_ne.
  - intros m d r m' p. apply makedirs_chain_frame.
  - intros m p text e m' Hw.
    by apply fs_write_cases in Hw as [[[=] _] | (e' & _ & ->)].
Qed.

(** C1: the label column of a labelled table has one cell per row, each 0
    or 1, and the cell is 1 exactly when the row's timestamp, as the one
    conversion of the whole [timestamp] column gives it, is equal to one
    of the anomaly timestamps, each converted on its own; nothing ties the
    two conversions of one text together.  On the scenario of the
    specification the labels are 0, 1, 0 and the run reports 3 points, 1
    anomaly and 2 normal points, in mirrored mode and in place. *)
Theorem label_is_one_iff_timestamp_matches :
  (∀ (P : Pandas) (O : OS) path ats (st st' : State) (df : DataFrame Timestamp),
     process_csv_file path ats st = (Ok df, st') →
     ∃ text (df0 : DataFrame Timestamp) (col : list (value Timestamp))
       (ts times : list Timestamp) (lab : list (value Timestamp)),
       read_text (fs st) path = Ok text ∧
       parse_csv text = Ok df0 ∧
       getitem df0 "timestamp" = Ok col ∧
       to_datetime_series col = Ok (Datetime <$> ts) ∧
       Forall2 (λ s t, to_datetime (Str s) = Ok t) ats times ∧
       getitem df "anomaly" = Ok lab ∧
       (rectangular df0 →
        length ts = nrows df ∧ length lab = nrows df ∧
        ∀ i, i < nrows df →
          ∃ t (l : Z),
            ts !! i = Some t ∧ lab !! i = Some (Int l) ∧
            (l = 0 ∨ l = 1)%Z ∧ (l = 1%Z ↔ t ∈ times))) ∧
  sensorA_table = (Ok (sensorA_df [0; 1; 0]%Z), start sensorA_fs) ∧
  (sensorA_run (Some "out")).1 = Ok tt ∧
  stdout (sensorA_run (Some "out")).2 =
    ["Loading labels..."; "Processing: sensorA.csv";
     "  - Total points: 3"; "  - Anomaly points: 1"; "  - Normal points: 2";
     "  - Saved to: out/sensorA.csv";
     nl +:+ "Processing complete!";
     "Successfully processed: 1 files"; "Errors encountered: 0 files"] ∧
  fs (sensorA_run (Some "out")).2 !! "out/sensorA.csv" = Some (File sensorA_labelled) ∧
  (sensorA_run None).1 = Ok tt ∧
  stdout (sensorA_run None).2 =
    ["Loading labels..."; "Processing: sensorA.csv";
     "  - Total points: 3"; "  - Anomaly points: 1"; "  - Normal points: 2";
     "  - Updated original file";
     nl +:+ "Processing complete!";
     "Successfully processed: 1 files"; "Errors encountered: 0 files"] ∧
  fs (sensorA_run None).2 !! "data/sensorA.csv" = Some (File sensorA_labelled).
Proof.
  split.
  { intros P O path ats st st' df Hp. by eapply processed_label_column. }
  split.
  { apply (process_csv_file_result (PD:=pandas) (SYS:=os)). vm_compute. reflexivity. }
  repeat (split; [vm_compute; reflexivity |]). vm_compute. reflexivity.
Qed.

Lemma label_is_one_iff_timestamp_matches_witness :
  process_csv_file "data/sensorA.csv" ["2024-01-01T00:00:05"] (start sensorA_fs)
    = (Ok (sensorA_df [0; 1; 0]%Z), start sensorA_fs) ∧
  ∃ lab, getitem (sensorA_df [0; 1; 0]%Z) "anomaly" = Ok lab ∧ length lab = 3.
Proof.
  assert (process_csv_file "data/sensorA.csv" ["2024-01-01T00:00:05"] (start sensorA_fs)
          = (Ok (sensorA_df [0; 1; 0]%Z), start sensorA_fs)) as Hrun
    by (apply (process_csv_file_result (PD:=pandas) (SYS:=os)); vm_compute; reflexivity).
  split; [exact Hrun |].
  destruct (proj1 label_is_one_iff_timestamp_matches pandas os _ _ _ _ _ Hrun)
    as (text & df0 & col & ts & times & lab & Hread & Hparse & _ & _ & _ & Hlab & Hrows).
  exists lab. split; [exact Hlab |].
  vm_compute in Hread. injection Hread as <-.
  vm_compute in Hparse. injection Hparse as <-.
  apply Hrows. repeat constructor.
Defined.

Lemma labelling_keeps_row_count_witness :
  ∃ df : DataFrame stamp,
    process_csv_file "data/sensorA.csv" ["2024-01-01T00:00:05"] (start sensorA_fs)
      = (Ok df, start sensorA_fs) ∧
    len df = 3.
Proof.
  destruct (labelling_keeps_row_count "data" (Some "out") "sensorA.csv"
              ["2024-01-01T00:00:05"] (start sensorA_fs)
              (loop_body "data" (Some "out") sensorA_entry (start sensorA_fs)).2)
    as (text & df0 & df & m1 & Hread & Hparse & Hp & _ & Hlen & _).
  - apply ended. vm_compute. reflexivity.
  - vm_compute. reflexivity.
  - exists df. split; [exact Hp |]. rewrite Hlen.
    vm_compute in Hread. injection Hread as <-.
    vm_compute in Hparse. injection Hparse as <-. reflexivity.
Defined.

Lemma empty_anomaly_list_labels_all_zero_witness :
  path_exists (fs (start sensorA_fs)) (path_join "data" "sensorA.csv") = true ∧
  getitem (sensorA_df [0; 0; 0]%Z) "anomaly" = Ok [Int 0; Int 0; Int 0].
Proof.
  split; [vm_compute; reflexivity |].
  apply (empty_anomaly_list_labels_all_zero (PD:=pandas) "data" None "sensorA.csv"
           (start sensorA_fs) (sensorA_df [0; 0; 0]%Z)).
  - vm_compute. reflexivity.
  - apply (process_csv_file_result (PD:=pandas) (SYS:=os)). vm_compute. reflexivity.
Defined.



Lemma label_load_failure_aborts_witness :
  read_text (fs (start ∅)) "labels.json"
    = Raise (os_error "FileNotFoundError" "2] No such file or directory: " "labels.json") ∧
  ∃ st',
    combine_datasets_with_labels "data" "labels.json" (Some "out") (start ∅)
      = (Raise (os_error "FileNotFoundError" "2] No such file or directory: " "labels.json"),
         st') ∧
    fs st' = ∅.
Proof.
  split; [vm_compute; reflexivity |].
  destruct (label_load_failure_aborts (PD:=pandas) (JS:=json) "data" "labels.json"
              (Some "out") (start ∅)
              (os_error "FileNotFoundError" "2] No such file or directory: " "labels.json"))
    as (st' & Hrun & Hfs & _).
  - left. vm_compute. reflexivity.
  - exists st'. split; [exact Hrun | exact Hfs].
Defined.





Lemma prompt_selects_mode_witness :
  path_exists (fs (start main_fs)) data_directory = true ∧
  path_exists (fs (start main_fs)) labels_file = true ∧
  main "" (start main_fs) = main "1" (start main_fs) ∧
  main "yes" (start main_fs) = main "1" (start main_fs).
Proof.
  split; [vm_compute; reflexivity |].
  split; [vm_compute; reflexivity |].
  pose proof (prompt_selects_mode (PD:=pandas) (JS:=json)) as Hmode.
  cbn zeta in Hmode.
  assert (path_exists (fs (start main_fs)) data_directory = true) as Hd
    by (vm_compute; reflexivity).
  assert (path_exists (fs (start main_fs)) labels_file = true) as Hl
    by (vm_compute; reflexivity).
  destruct (Hmode "" (start main_fs) Hd Hl) as (Hempty & _).
  destruct (Hmode "1" (start main_fs) Hd Hl) as (Hone & _).
  destruct (Hmode "yes" (start main_fs) Hd Hl) as (Hyes & _).
  rewrite Hempty, Hone, Hyes by discriminate. split; reflexivity.
Defined.


(** ** Instances of the further properties *)

Lemma main_stops_when_a_path_is_missing_witness :
  path_exists (fs (start ∅)) data_directory = false ∧
  ∃ st', main "2" (start ∅) = (Ok tt, st') ∧ fs st' = ∅.
Proof.
  split; [vm_compute; reflexivity |].
  destruct (main_stops_when_a_path_is_missing (PD:=pandas) (JS:=json) "2" (start ∅))
    as (st' & message & Hmain & Hfs & _).
  - left. vm_compute. reflexivity.
  - exists st'. split; [exact Hmain | exact Hfs].
Defined.

Lemma output_directory_failure_aborts_witness :
  (makedirs (fs (start sensorA_fs)) "labels.json").1
    = Raise (os_error "FileExistsError" "17] File exists: " "labels.json") ∧
  (combine_datasets_with_labels "data" "labels.json" (Some "labels.json")
     (start sensorA_fs)).1
    = Raise (os_error "FileExistsError" "17] File exists: " "labels.json").
Proof.
  split; [vm_compute; reflexivity |].
  rewrite (output_directory_failure_aborts (PD:=pandas) (JS:=json) "data" "labels.json"
             (Some "labels.json") "labels.json" (start sensorA_fs) sensorA_labels
             [sensorA_entry]
             (os_error "FileExistsError" "17] File exists: " "labels.json")
             (makedirs (fs (start sensorA_fs)) "labels.json").2).
  - reflexivity.
  - vm_compute. reflexivity.
  - vm_compute. reflexivity.
  - vm_compute. reflexivity.
  - apply ended. vm_compute. reflexivity.
Defined.




Lemma anomaly_points_count_matching_rows_witness :
  process_csv_file "data/sensorA.csv" ["2024-01-01T00:00:05"] (start sensorA_fs)
    = (Ok (sensorA_df [0; 1; 0]%Z), start sensorA_fs) ∧
  ∃ lab,
    getitem (sensorA_df [0; 1; 0]%Z) "anomaly" = Ok lab ∧
    (0 ≤ series_sum lab ≤ 3)%Z.
Proof.
  assert (process_csv_file "data/sensorA.csv" ["2024-01-01T00:00:05"] (start sensorA_fs)
          = (Ok (sensorA_df [0; 1; 0]%Z), start sensorA_fs)) as Hrun
    by (apply (process_csv_file_result (PD:=pandas) (SYS:=os)); vm_compute; reflexivity).
  split; [exact Hrun |].
  destruct (anomaly_points_count_matching_rows (PD:=pandas) _ _ _ _ _ Hrun)
    as (text & df0 & col & ts & times & lab & Hread & Hparse & _ & _ & _ & Hlab & Hsum).
  exists lab. split; [exact Hlab |].
  vm_compute in Hread. injection Hread as <-.
  vm_compute in Hparse. injection Hparse as <-.
  apply Hsum. repeat constructor.
Defined.

Lemma labels_ignore_order_and_repeats_witness :
  process_csv_file "data/sensorA.csv"
    ["2024-01-01T00:00:05"; "2024-01-01T00:00:10"] (start sensorA_fs)
    = (Ok (sensorA_df [0; 1; 1]%Z), start sensorA_fs) ∧
  process_csv_file "data/sensorA.csv"
    ["2024-01-01T00:00:10"; "2024-01-01T00:00:05"; "2024-01-01T00:00:10"]
    (start sensorA_fs)
    = (Ok (sensorA_df [0; 1; 1]%Z), start sensorA_fs).
Proof.
  assert (process_csv_file "data/sensorA.csv"
            ["2024-01-01T00:00:05"; "2024-01-01T00:00:10"] (start sensorA_fs)
          = (Ok (sensorA_df [0; 1; 1]%Z), start sensorA_fs)) as Hrun
    by (apply (process_csv_file_result (PD:=pandas) (SYS:=os)); vm_compute; reflexivity).
  split; [exact Hrun |].
  apply (labels_ignore_order_and_repeats (PD:=pandas) _ _ _ _ _ _ Hrun).
  intros a. rewrite !elem_of_cons, !elem_of_nil. tauto.
Defined.

Lemma unmatched_anomaly_timestamps_label_nothing_witness :
  process_csv_file "data/sensorA.csv" ["2024-01-01T00:00:07"] (start sensorA_fs)
    = (Ok (sensorA_df [0; 0; 0]%Z), start sensorA_fs) ∧
  process_csv_file "data/sensorA.csv" [] (start sensorA_fs)
    = (Ok (sensorA_df [0; 0; 0]%Z), start sensorA_fs).
Proof.
  assert (process_csv_file "data/sensorA.csv" ["2024-01-01T00:00:07"] (start sensorA_fs)
          = (Ok (sensorA_df [0; 0; 0]%Z), start sensorA_fs)) as Hrun
    by (apply (process_csv_file_result (PD:=pandas) (SYS:=os)); vm_compute; reflexivity).
  split; [exact Hrun |].
  apply (unmatched_anomaly_timestamps_label_nothing (PD:=pandas) _ _ _ _ _
           sensorA_csv sensorA_raw
           [Str "2024-01-01T00:00:00"; Str "2024-01-01T00:00:05";
            Str "2024-01-01T00:00:10"] sensorA_times Hrun).
  - vm_compute. reflexivity.
  - vm_compute. reflexivity.
  - repeat constructor.
  - vm_compute. reflexivity.
  - vm_compute. reflexivity.
  - intros t a Ht Ha Hat.
    apply elem_of_cons in Ha as [-> | Ha]; [|apply elem_of_nil in Ha; destruct Ha].
    vm_compute in Hat. injection Hat as <-. unfold sensorA_times in Ht.
    repeat (apply elem_of_cons in Ht as [Ht | Ht]; [discriminate Ht |]).
    apply elem_of_nil in Ht. destruct Ht.
Defined.

Lemma empty_index_processes_nothing_witness :
  json_load "{}" = Ok (JsonObject []) ∧
  (combine_datasets_with_labels "data" "labels.json" None (start empty_index_fs)).1
    = Ok tt.
Proof.
  split; [vm_compute; reflexivity |].
  rewrite (empty_index_processes_nothing (PD:=pandas) (JS:=json) "data" "labels.json"
             None (start empty_index_fs) "{}" empty_index_fs).
  - reflexivity.
  - vm_compute. reflexivity.
  - vm_compute. reflexivity.
  - reflexivity.
Defined.

Lemma processed_entry_leaves_labelled_text_witness :
  processed_count (loop_body "data" None sensorA_entry (start sensorA_fs)).2 = 1 ∧
  file_text (fs (loop_body "data" None sensorA_entry (start sensorA_fs)).2)
    "data/sensorA.csv" = Some sensorA_labelled.
Proof.
  split; [vm_compute; reflexivity |].
  destruct (processed_entry_leaves_labelled_text (PD:=pandas) (fs_frame concrete_fs_laws)
              "data" None "sensorA.csv" ["2024-01-01T00:00:05"] (start sensorA_fs)
              (loop_body "data" None sensorA_entry (start sensorA_fs)).2)
    as (df & Hp & Htext & _).
  - apply ended. vm_compute. reflexivity.
  - vm_compute. reflexivity.
  - assert (process_csv_file "data/sensorA.csv" ["2024-01-01T00:00:05"] (start sensorA_fs)
            = (Ok (sensorA_df [0; 1; 0]%Z), start sensorA_fs)) as Hrun
      by (apply (process_csv_file_result (PD:=pandas) (SYS:=os)); vm_compute; reflexivity).
    assert (Ok df = Ok (sensorA_df [0; 1; 0]%Z)) as Hdf
      by exact (f_equal fst (eq_trans (eq_sym Hp) Hrun)).
    injection Hdf as ->. exact Htext.
Defined.

Lemma in_place_run_touches_only_indexed_files_witness :
  combine_datasets_with_labels "data" "labels.json" None (start sensorA_fs)
    = (Ok tt, (sensorA_run None).2) ∧
  file_text (fs (sensorA_run None).2) "labels.json" = Some sensorA_labels.
Proof.
  assert (combine_datasets_with_labels "data" "labels.json" None (start sensorA_fs)
          = (Ok tt, (sensorA_run None).2)) as Hrun
    by (apply (ended (sensorA_run None)); vm_compute; reflexivity).
  split; [exact Hrun |].
  rewrite (in_place_run_touches_only_indexed_files (PD:=pandas) (JS:=json)
             (fs_frame concrete_fs_laws) "data" "labels.json" None (start sensorA_fs)
             (sensorA_run None).2 sensorA_labels [sensorA_entry]).
  - vm_compute. reflexivity.
  - reflexivity.
  - vm_compute. reflexivity.
  - vm_compute. reflexivity.
  - exact Hrun.
  - intros Hin. apply elem_of_cons in Hin as [Hin | Hin]; [discriminate Hin |].
    apply elem_of_nil in Hin. destruct Hin.
Defined.
